(** * go-uow: the Unit of Work helpers and their SQL adapters

    A shallow embedding of the Go sources:
    - [errors.go]            the sentinel and the three wrapper errors;
    - [tx_options.go]        the option presets (the [*sql.TxOptions] revision);
    - [uow.go]               the [UOW] and [Factory] interfaces;
    - [run_tx.go]            [RunTxWithResult] and [RunTx], in the two revisions
                             the sources hold: the one that wraps lifecycle
                             errors ([errors.Join], no [recover]) and the one
                             that finalises in a deferred function ([recover],
                             no wrapping);
    - [pgxv5/uow.go], [pgxv5/factory.go]   the pooled pgx adapter;
    - [stdsql/uow.go], [stdsql/factory.go] the database/sql adapter.

    Go pointers to a mutable receiver become explicit state passing: a method
    takes the receiver struct and the world and returns both.  The database
    driver is an external collaborator: the world records every native call in
    a trace and answers each call as a function of the calls made so far.
    The [context.Context] argument carries no data the code inspects and is
    left out. *)

From Stdlib Require Import String List ZArith Bool Lia.
Import ListNotations.
Local Open Scope string_scope.
Local Open Scope list_scope.

Set Implicit Arguments.
Set Warnings "-register-all".

(* ================================================================== *)
(** ** Go values: errors, panics, outcomes                             *)
(* ================================================================== *)

(** A non-nil Go [error].  A nilable [error] is an [option error]. *)
Inductive error : Type :=
| errorString (msg : string)                    (* errors.New(msg) *)
| wrapError (prefix : string) (Err : error)     (* fmt.Errorf(prefix + "%w", Err) *)
| joinError (errs : list error)                 (* the value errors.Join builds *)
| FailedToRollbackError (Err : option error)
| FailedToCommitError (Err : option error)
| FailedToStartTransactionError (Err : option error).

(** [errors.Join(errs...)]: nil values are dropped; nil when none is left. *)
Fixpoint nonNil (errs : list (option error)) : list error :=
  match errs with
  | [] => []
  | None :: rest => nonNil rest
  | Some e :: rest => e :: nonNil rest
  end.

Definition errors_Join (errs : list (option error)) : option error :=
  match nonNil errs with
  | [] => None
  | l => Some (joinError l)
  end.

(** The value a panic carries. *)
Inductive PanicValue : Type :=
| PanicString (msg : string)
| PanicError (e : error).

(** A call either returns or panics. *)
Inductive Outcome (A : Type) : Type :=
| Returned (a : A)
| Panicked (p : PanicValue).
Arguments Returned {A} a.
Arguments Panicked {A} p.

Definition mapOutcome {A B : Type} (f : A -> B) (o : Outcome A) : Outcome B :=
  match o with
  | Returned a => Returned (f a)
  | Panicked p => Panicked p
  end.

(* ================================================================== *)
(** ** errors.go                                                       *)
(* ================================================================== *)

Definition ErrTransactionNotStarted : error := errorString "transaction not started".

Definition FailedToRollback (err : option error) : error := FailedToRollbackError err.
Definition FailedToCommit (err : option error) : error := FailedToCommitError err.
Definition FailedToStartTransaction (err : option error) : error :=
  FailedToStartTransactionError err.

(* ================================================================== *)
(** ** The driver packages' option types                               *)
(* ================================================================== *)

(** database/sql: [type IsolationLevel int] and its [iota] constants,
    [type TxOptions struct { Isolation IsolationLevel; ReadOnly bool }]. *)
Module sql.
Definition IsolationLevel := Z.
Definition LevelDefault : IsolationLevel := 0%Z.
Definition LevelReadUncommitted : IsolationLevel := 1%Z.
Definition LevelReadCommitted : IsolationLevel := 2%Z.
Definition LevelWriteCommitted : IsolationLevel := 3%Z.
Definition LevelRepeatableRead : IsolationLevel := 4%Z.
Definition LevelSnapshot : IsolationLevel := 5%Z.
Definition LevelSerializable : IsolationLevel := 6%Z.
Definition LevelLinearizable : IsolationLevel := 7%Z.

Record TxOptions : Type := mkTxOptions {
  Isolation : IsolationLevel;
  ReadOnly : bool
}.
End sql.

(** pgx/v5: [type TxIsoLevel string], [type TxAccessMode string] and
    [type TxOptions struct].  Only the two fields the adapter writes are kept;
    the zero value of a string-typed field is the empty string. *)
Module pgx.
Definition TxIsoLevel := string.
Definition Serializable : TxIsoLevel := "serializable".
Definition RepeatableRead : TxIsoLevel := "repeatable read".
Definition ReadCommitted : TxIsoLevel := "read committed".
Definition ReadUncommitted : TxIsoLevel := "read uncommitted".

Definition TxAccessMode := string.
Definition ReadWrite : TxAccessMode := "read write".
Definition ReadOnly : TxAccessMode := "read only".

Record TxOptions : Type := mkTxOptions {
  IsoLevel : TxIsoLevel;
  AccessMode : TxAccessMode
}.

(** [pgx.TxOptions{}] *)
Definition zeroTxOptions : TxOptions := mkTxOptions "" "".
End pgx.

(* ================================================================== *)
(** ** tx_options.go ([*sql.TxOptions] presets)                        *)
(* ================================================================== *)

Definition DefaultTxOptions : option sql.TxOptions :=
  Some (sql.mkTxOptions sql.LevelReadCommitted false).

Definition SerializableTxOptions : option sql.TxOptions :=
  Some (sql.mkTxOptions sql.LevelSerializable false).

Definition ReadOnlyTxOptions : option sql.TxOptions :=
  Some (sql.mkTxOptions sql.LevelReadCommitted true).

(* ================================================================== *)
(** ** pgxv5/uow.go: mapSQLTxOptionsToPgx                              *)
(* ================================================================== *)

(** The [switch] on [options.Isolation]. *)
Definition mapIsolation (l : sql.IsolationLevel) : pgx.TxIsoLevel :=
  if Z.eqb l sql.LevelReadUncommitted then pgx.ReadUncommitted
  else if Z.eqb l sql.LevelReadCommitted then pgx.ReadCommitted
  else if Z.eqb l sql.LevelRepeatableRead then pgx.RepeatableRead
  else if Z.eqb l sql.LevelSerializable then pgx.Serializable
  else pgx.ReadCommitted.

Definition mapSQLTxOptionsToPgx (options : option sql.TxOptions) : pgx.TxOptions :=
  match options with
  | None => pgx.zeroTxOptions
  | Some o =>
      pgx.mkTxOptions
        (mapIsolation (sql.Isolation o))
        (if sql.ReadOnly o then pgx.ReadOnly else pgx.ReadWrite)
  end.

(* ================================================================== *)
(** ** The world: the native driver as an external collaborator        *)
(* ================================================================== *)

(** Handles name the objects the driver hands out ([*pgxpool.Conn],
    [pgx.Tx], [*sql.Tx]).  A handle is the position in the trace of the call
    that created it, so two calls never yield the same handle. *)
Definition ConnHandle := nat.
Definition TxHandle := nat.

(** One native call. *)
Inductive Event : Type :=
| EvAcquire                                             (* pool.Acquire(ctx) *)
| EvPgxBeginTx (c : ConnHandle) (o : pgx.TxOptions)     (* conn.BeginTx(ctx, o) *)
| EvSqlBeginTx (o : option sql.TxOptions)               (* db.BeginTx(ctx, o) *)
| EvCommit (t : TxHandle)                               (* tx.Commit *)
| EvRollback (t : TxHandle)                             (* tx.Rollback *)
| EvRelease (c : ConnHandle)                            (* conn.Release() *)
| EvClose.                                              (* pool.Close(), db.Close() *)

(** The driver's answer to a call, given the calls made before it: the error
    it returns, [None] for nil. *)
Definition Driver : Type := list Event -> Event -> option error.

Record World : Type := mkWorld {
  trace : list Event;
  driver : Driver
}.

Definition record (e : Event) (w : World) : World :=
  mkWorld (trace w ++ [e]) (driver w).

(** A native call that returns only an error. *)
Definition native (e : Event) (w : World) : option error * World :=
  (driver w (trace w) e, record e w).

(** A native call that returns a fresh object or an error. *)
Definition nativeNew (e : Event) (w : World) : (error + nat) * World :=
  match native e w with
  | (Some err, w') => (inl err, w')
  | (None, w') => (inr (length (trace w)), w')
  end.

Definition pool_Acquire (w : World) : (error + ConnHandle) * World :=
  nativeNew EvAcquire w.

Definition conn_BeginTx (c : ConnHandle) (o : pgx.TxOptions) (w : World)
  : (error + TxHandle) * World :=
  nativeNew (EvPgxBeginTx c o) w.

Definition db_BeginTx (o : option sql.TxOptions) (w : World)
  : (error + TxHandle) * World :=
  nativeNew (EvSqlBeginTx o) w.

Definition tx_Commit (t : TxHandle) (w : World) : option error * World :=
  native (EvCommit t) w.

Definition tx_Rollback (t : TxHandle) (w : World) : option error * World :=
  native (EvRollback t) w.

(** [conn.Release()] and [pool.Close()] return nothing. *)
Definition conn_Release (c : ConnHandle) (w : World) : World :=
  record (EvRelease c) w.

Definition pool_Close (w : World) : World :=
  record EvClose w.

Definition db_Close (w : World) : option error * World :=
  native EvClose w.

(** Counting the native calls of a trace. *)
Definition isCommit (e : Event) : bool :=
  match e with EvCommit _ => true | _ => false end.
Definition isRollback (e : Event) : bool :=
  match e with EvRollback _ => true | _ => false end.
Definition isRelease (e : Event) : bool :=
  match e with EvRelease _ => true | _ => false end.
Definition isBegin (e : Event) : bool :=
  match e with EvPgxBeginTx _ _ | EvSqlBeginTx _ => true | _ => false end.

Definition count (p : Event -> bool) (l : list Event) : nat :=
  length (filter p l).

Definition commits (w : World) : nat := count isCommit (trace w).
Definition rollbacks (w : World) : nat := count isRollback (trace w).
Definition releases (w : World) : nat := count isRelease (trace w).
Definition begins (w : World) : nat := count isBegin (trace w).

(* ================================================================== *)
(** ** uow.go: the interfaces                                          *)
(* ================================================================== *)

Module uow.

(** [type UOW[TRepoRegistry any] interface].  [U] is the receiver struct,
    [W] the world it acts on, [R] the registry and [O] the type of the
    options [Begin] takes. *)
Class UOW (U W R O : Type) : Type := {
  MustRepoRegistry : U -> Outcome R;
  Begin : O -> U -> W -> option error * U * W;
  Commit : U -> W -> option error * U * W;
  Rollback : U -> W -> option error * U * W
}.

(** [type Factory[TRepoRegistry any] interface] *)
Record Factory (U W : Type) : Type := mkFactory {
  NewUOW : W -> (error + U) * W;
  Release : W -> option error * W
}.

(** The calls a helper makes, in order. *)
Inductive Call : Type :=
| CallNewUOW | CallBegin | CallAction | CallRollback | CallCommit.

Definition Call_eq_dec (a b : Call) : {a = b} + {a <> b}.
Proof. decide equality. Defined.

(** What a run of a helper leaves behind: what the caller gets ([A] is the
    tuple of results), the UoW struct as the helper left it ([None] when the
    factory gave none), the world, and the calls the helper made. *)
Record Run (A U W : Type) : Type := mkRun {
  outcome : Outcome A;
  uow_final : option U;
  world_final : W;
  calls : list Call
}.

(** [type TxActionWithResult func(UOW) (result, error)] and
    [type TxAction func(UOW) error].  The action gets the UoW by reference
    and runs in the world. *)
Definition TxActionWithResult (U W T : Type) : Type :=
  U -> W -> Outcome (option T * option error) * U * W.

Definition TxAction (U W : Type) : Type :=
  U -> W -> Outcome (option error) * U * W.

(** Go's [any]; the helpers only ever hold a nil pointer to it. *)
Definition any : Type := { A : Set & A }.

(** The closure [RunTx] builds: [return nil, action(uow)]. *)
Definition nilResult {U W : Type} (action : TxAction U W)
  : TxActionWithResult U W any :=
  fun u w =>
    match action u w with
    | (o, u', w') => (mapOutcome (fun err => (None, err)) o, u', w')
    end.

(** [_, err := ...; return err] *)
Definition errorOf {A U W : Type} (r : Run (option A * option error) U W)
  : Run (option error) U W :=
  mkRun (mapOutcome snd (outcome r)) (uow_final r) (world_final r) (calls r).

End uow.
Import uow.

(** The zero value of a Go type: what a struct field holds before it is
    assigned. *)
Class GoZero (R : Type) : Type := zeroValue : R.

#[export] Instance nat_GoZero : GoZero nat := 0.
#[export] Instance string_GoZero : GoZero string := "".

(* ================================================================== *)
(** ** run_tx.go, the revision that wraps lifecycle errors             *)
(* ================================================================== *)

(** [RunTxWithResult] and [RunTx] as in the second document of
    src/pgxv5/uow.go: no deferred function, no [recover]. *)
Module Wrapping.
Section Helpers.
Context {U W R O : Type} `{UOW U W R O}.

Definition RunTxWithResult {T : Type}
    (factory : Factory U W) (action : TxActionWithResult U W T)
    (options : O) (w : W) : Run (option T * option error) U W :=
  match NewUOW factory w with
  | (inl err, w1) =>
      mkRun (Returned (None, Some err)) None w1 [CallNewUOW]
  | (inr uow, w1) =>
      match Begin options uow w1 with
      | (Some err, uow, w2) =>
          mkRun (Returned (None, Some (FailedToStartTransaction (Some err))))
                (Some uow) w2 [CallNewUOW; CallBegin]
      | (None, uow, w2) =>
          match action uow w2 with
          | (Panicked p, uow, w3) =>
              (* nothing is deferred: the panic unwinds through the helper *)
              mkRun (Panicked p) (Some uow) w3 [CallNewUOW; CallBegin; CallAction]
          | (Returned (result, Some err), uow, w3) =>
              match Rollback uow w3 with
              | (Some rollbackErr, uow, w4) =>
                  let joinedError := errors_Join [Some err; Some rollbackErr] in
                  mkRun (Returned (None, Some (FailedToRollback joinedError)))
                        (Some uow) w4
                        [CallNewUOW; CallBegin; CallAction; CallRollback]
              | (None, uow, w4) =>
                  mkRun (Returned (None, Some err)) (Some uow) w4
                        [CallNewUOW; CallBegin; CallAction; CallRollback]
              end
          | (Returned (result, None), uow, w3) =>
              match Commit uow w3 with
              | (Some commitErr, uow, w4) =>
                  mkRun (Returned (None, Some (FailedToCommit (Some commitErr))))
                        (Some uow) w4
                        [CallNewUOW; CallBegin; CallAction; CallCommit]
              | (None, uow, w4) =>
                  mkRun (Returned (result, None)) (Some uow) w4
                        [CallNewUOW; CallBegin; CallAction; CallCommit]
              end
          end
      end
  end.

Definition RunTx (factory : Factory U W) (action : TxAction U W)
    (options : O) (w : W) : Run (option error) U W :=
  errorOf (RunTxWithResult factory (nilResult action) options w).

End Helpers.
End Wrapping.

(* ================================================================== *)
(** ** run_tx.go, the revision that finalises in a deferred function   *)
(* ================================================================== *)

(** [RunTxWithResult] and [RunTx] as in src/unnamed/part_002: named results
    [res] and [err], one deferred function. *)
Module Deferred.
Section Helpers.
Context {U W R O : Type} `{UOW U W R O}.

(** The deferred function.  [recovered] is what [recover()] returns: the
    panic value when the action panicked ([panic(nil)] yields a non-nil
    runtime error since Go 1.21).  [res] and [err] are the named results
    at the time the function runs; [log] the calls made so far. *)
Definition deferred {T : Type} (recovered : option PanicValue)
    (res : option T) (err : option error) (uow : U) (w : W)
    (log : list Call) : Run (option T * option error) U W :=
  match recovered with
  | Some p =>
      match Rollback uow w with
      | (_, uow, w') => mkRun (Panicked p) (Some uow) w' (log ++ [CallRollback])
      end
  | None =>
      match err with
      | Some _ =>
          match Rollback uow w with
          | (_, uow, w') =>
              mkRun (Returned (res, err)) (Some uow) w' (log ++ [CallRollback])
          end
      | None =>
          match Commit uow w with
          | (commitErr, uow, w') =>
              mkRun (Returned (res, commitErr)) (Some uow) w' (log ++ [CallCommit])
          end
      end
  end.

Definition RunTxWithResult {T : Type}
    (factory : Factory U W) (action : TxActionWithResult U W T)
    (options : O) (w : W) : Run (option T * option error) U W :=
  match NewUOW factory w with
  | (inl err, w1) =>
      mkRun (Returned (None, Some err)) None w1 [CallNewUOW]
  | (inr uow, w1) =>
      match Begin options uow w1 with
      | (Some err, uow, w2) =>
          mkRun (Returned (None, Some err)) (Some uow) w2 [CallNewUOW; CallBegin]
      | (None, uow, w2) =>
          match action uow w2 with
          | (Panicked p, uow, w3) =>
              deferred (Some p) None None uow w3 [CallNewUOW; CallBegin; CallAction]
          | (Returned (res, err), uow, w3) =>
              deferred None res err uow w3 [CallNewUOW; CallBegin; CallAction]
          end
      end
  end.

Definition RunTx (factory : Factory U W) (action : TxAction U W)
    (options : O) (w : W) : Run (option error) U W :=
  errorOf (RunTxWithResult factory (nilResult action) options w).

End Helpers.
End Deferred.

(* ================================================================== *)
(** ** pgxv5/uow.go, pgxv5/factory.go                                  *)
(* ================================================================== *)

Module pgxv5.
Section Adapter.
Context {R : Type} `{GoZero R}.

Definition RepoRegistryFactory : Type := TxHandle -> R.

(** [type pgUOW struct]; a nil [tx] is [None]. *)
Record pgUOW : Type := mkPgUOW {
  tx : option TxHandle;
  repoRegistry : R;
  conn : ConnHandle;
  repoRegistryFactory : RepoRegistryFactory
}.

Definition newPgUOW (conn : ConnHandle) (repoRegistryFactory : RepoRegistryFactory)
  : pgUOW :=
  mkPgUOW None zeroValue conn repoRegistryFactory.

Definition RepoRegistry (u : pgUOW) : option R * option error :=
  match tx u with
  | None => (None, Some ErrTransactionNotStarted)
  | Some _ => (Some (repoRegistry u), None)
  end.

Definition MustRepoRegistry (u : pgUOW) : Outcome R :=
  match tx u with
  | None => Panicked (PanicString "transaction not started")
  | Some _ => Returned (repoRegistry u)
  end.

Definition Begin (options : option sql.TxOptions) (u : pgUOW) (w : World)
  : option error * pgUOW * World :=
  let pgxOptions := mapSQLTxOptionsToPgx options in
  match conn_BeginTx (conn u) pgxOptions w with
  | (inl err, w') => (Some err, u, w')
  | (inr t, w') =>
      (None, mkPgUOW (Some t) (repoRegistryFactory u t) (conn u) (repoRegistryFactory u), w')
  end.

(** [defer u.conn.Release()] runs after the body, on every path. *)
Definition Commit (u : pgUOW) (w : World) : option error * pgUOW * World :=
  let '(err, w') :=
    match tx u with
    | None => (Some ErrTransactionNotStarted, w)
    | Some t => tx_Commit t w
    end in
  (err, u, conn_Release (conn u) w').

Definition Rollback (u : pgUOW) (w : World) : option error * pgUOW * World :=
  let '(err, w') :=
    match tx u with
    | None => (Some ErrTransactionNotStarted, w)
    | Some t => tx_Rollback t w
    end in
  (err, u, conn_Release (conn u) w').

Definition pgUOW_UOW : uow.UOW pgUOW World R (option sql.TxOptions) :=
  uow.Build_UOW MustRepoRegistry Begin Commit Rollback.

(** [type Factory struct]: the pool is the world's. *)
Record Factory : Type := mkFactory {
  factory_repoRegistryFactory : RepoRegistryFactory
}.

Definition NewFactory (repoRegistryFactory : RepoRegistryFactory)
  : Factory * option error :=
  (mkFactory repoRegistryFactory, None).

Definition NewUOW (f : Factory) (w : World) : (error + pgUOW) * World :=
  match pool_Acquire w with
  | (inl err, w') => (inl err, w')
  | (inr conn, w') => (inr (newPgUOW conn (factory_repoRegistryFactory f)), w')
  end.

(** [f.pool.Close(); return nil] *)
Definition Release (f : Factory) (w : World) : option error * World :=
  (None, pool_Close w).

Definition asFactory (f : Factory) : uow.Factory pgUOW World :=
  uow.mkFactory (NewUOW f) (Release f).

End Adapter.
Arguments pgUOW R : clear implicits.
Arguments Factory R : clear implicits.
End pgxv5.

(* ================================================================== *)
(** ** stdsql/uow.go, stdsql/factory.go                                *)
(* ================================================================== *)

Module stdsql.
Section Adapter.
Context {R : Type} `{GoZero R}.

Definition RepoRegistryFactory : Type := TxHandle -> R.

(** [type sqlUOW struct]: the [db] is the world's. *)
Record sqlUOW : Type := mkSqlUOW {
  tx : option TxHandle;
  repoRegistry : R;
  repoRegistryFactory : RepoRegistryFactory
}.

Definition newSQLUOW (repoRegistryFactory : RepoRegistryFactory) : sqlUOW :=
  mkSqlUOW None zeroValue repoRegistryFactory.

Definition MustRepoRegistry (u : sqlUOW) : Outcome R :=
  match tx u with
  | None => Panicked (PanicString "transaction not started")
  | Some _ => Returned (repoRegistry u)
  end.

Definition Begin (options : option sql.TxOptions) (u : sqlUOW) (w : World)
  : option error * sqlUOW * World :=
  match db_BeginTx options w with
  | (inl err, w') => (Some (wrapError "failed to begin transaction: " err), u, w')
  | (inr t, w') =>
      (None, mkSqlUOW (Some t) (repoRegistryFactory u t) (repoRegistryFactory u), w')
  end.

Definition Commit (u : sqlUOW) (w : World) : option error * sqlUOW * World :=
  match tx u with
  | None => (Some ErrTransactionNotStarted, u, w)
  | Some t => let '(err, w') := tx_Commit t w in (err, u, w')
  end.

Definition Rollback (u : sqlUOW) (w : World) : option error * sqlUOW * World :=
  match tx u with
  | None => (Some ErrTransactionNotStarted, u, w)
  | Some t => let '(err, w') := tx_Rollback t w in (err, u, w')
  end.

Definition sqlUOW_UOW : uow.UOW sqlUOW World R (option sql.TxOptions) :=
  uow.Build_UOW MustRepoRegistry Begin Commit Rollback.

Record Factory : Type := mkFactory {
  factory_repoRegistryFactory : RepoRegistryFactory
}.

Definition NewFactory (repoRegistryFactory : RepoRegistryFactory)
  : Factory * option error :=
  (mkFactory repoRegistryFactory, None).

Definition NewUOW (f : Factory) (w : World) : (error + sqlUOW) * World :=
  (inr (newSQLUOW (factory_repoRegistryFactory f)), w).

(** [return f.db.Close()] *)
Definition Release (f : Factory) (w : World) : option error * World :=
  db_Close w.

Definition asFactory (f : Factory) : uow.Factory sqlUOW World :=
  uow.mkFactory (NewUOW f) (Release f).

End Adapter.
Arguments sqlUOW R : clear implicits.
Arguments Factory R : clear implicits.
End stdsql.

(** [var _ uow.UOW[any] = &pgUOW[any]{}] and [var _ uow.UOW[any] = &sqlUOW[any]{}] *)
#[global] Existing Instance pgxv5.pgUOW_UOW.
#[global] Existing Instance stdsql.sqlUOW_UOW.

(* ================================================================== *)
(** ** Vocabulary of the statements                                    *)
(* ================================================================== *)

(** [carries target e]: [target] is [e] or is reachable from [e] through the
    [Err] field of a wrapper, through [%w], or as a member of a join. *)
Inductive carries (target : error) : error -> Prop :=
| carries_self : carries target target
| carries_wrap prefix e :
    carries target e -> carries target (wrapError prefix e)
| carries_join errs e :
    In e errs -> carries target e -> carries target (joinError errs)
| carries_rollback e :
    carries target e -> carries target (FailedToRollbackError (Some e))
| carries_commit e :
    carries target e -> carries target (FailedToCommitError (Some e))
| carries_start e :
    carries target e -> carries target (FailedToStartTransactionError (Some e)).

(** The levels the [switch] of [mapSQLTxOptionsToPgx] names. *)
Definition recognised (l : sql.IsolationLevel) : Prop :=
  l = sql.LevelReadUncommitted \/ l = sql.LevelReadCommitted \/
  l = sql.LevelRepeatableRead \/ l = sql.LevelSerializable.

(** The native calls that open or finalise a transaction. *)
Definition isFinal (e : Event) : bool := isCommit e || isRollback e.
Definition isTxCall (e : Event) : bool := isBegin e || isFinal e.
Definition finals (w : World) : nat := count isFinal (trace w).
Definition txCalls (w : World) : list Event := filter isTxCall (trace w).

(** The lifecycle state NotStarted of an adapter's UoW: no transaction
    handle and no registry stored. *)
Definition pgNotStarted {R : Type} `{GoZero R} (u : pgxv5.pgUOW R) : Prop :=
  pgxv5.tx u = None /\ pgxv5.repoRegistry u = zeroValue.
Definition sqlNotStarted {R : Type} `{GoZero R} (v : stdsql.sqlUOW R) : Prop :=
  stdsql.tx v = None /\ stdsql.repoRegistry v = zeroValue.

(** How often a helper made a call. *)
Definition times (c : Call) (log : list Call) : nat := count_occ Call_eq_dec log c.

(** A sequence of [Commit] and [Rollback] calls on one UoW. *)
Inductive Finaliser : Type := DoCommit | DoRollback.

Section Finalise.
Context {U W R O : Type} `{UOW U W R O}.

Definition finalise (f : Finaliser) (u : U) (w : W) : option error * U * W :=
  match f with
  | DoCommit => Commit u w
  | DoRollback => Rollback u w
  end.

(** The errors the calls return, first call first, and the final state. *)
Fixpoint finaliseAll (fs : list Finaliser) (u : U) (w : W)
  : list (option error) * U * W :=
  match fs with
  | [] => ([], u, w)
  | f :: rest =>
      match finalise f u w with
      | (err, u', w') =>
          match finaliseAll rest u' w' with
          | (errs, u'', w'') => (err :: errs, u'', w'')
          end
      end
  end.
End Finalise.

(** The spec's "same helper at a unit result type": the action returns the
    unit value next to its error. *)
Definition unitResult {U W : Type} (action : TxAction U W)
  : TxActionWithResult U W unit :=
  fun u w =>
    match action u w with
    | (o, u', w') => (mapOutcome (fun err => (Some tt, err)) o, u', w')
    end.

(** Forgetting the result of an action. *)
Definition forgetResult {U W T : Type} (action : TxActionWithResult U W T)
  : TxAction U W :=
  fun u w =>
    match action u w with
    | (o, u', w') => (mapOutcome snd o, u', w')
    end.

(* ================================================================== *)
(** ** Concrete drivers, worlds and actions                            *)
(* ================================================================== *)

(** A driver on which every call succeeds. *)
Definition okDriver : Driver := fun _ _ => None.

(** A driver that refuses to finalise a transaction twice, as database/sql
    and pgx do. *)
Definition txDone : error := errorString "tx is closed".

Definition finalises (t : TxHandle) (e : Event) : bool :=
  match e with
  | EvCommit t' | EvRollback t' => Nat.eqb t t'
  | _ => false
  end.

Definition strictDriver : Driver :=
  fun history e =>
    match e with
    | EvCommit t | EvRollback t =>
        if existsb (finalises t) history then Some txDone else None
    | _ => None
    end.

Definition connRefused : error := errorString "connection refused".
Definition rollbackFailed : error := errorString "rollback failed".
Definition commitFailed : error := errorString "commit failed".

Definition beginFailsDriver : Driver :=
  fun _ e => if isBegin e then Some connRefused else None.
Definition rollbackFailsDriver : Driver :=
  fun _ e => if isRollback e then Some rollbackFailed else None.
Definition commitFailsDriver : Driver :=
  fun _ e => if isCommit e then Some commitFailed else None.

Definition emptyWorld (d : Driver) : World := mkWorld [] d.

(** A registry that is just the name of the transaction it is bound to. *)
Definition natRegistry : TxHandle -> nat := fun t => S t.

Definition pgFactory : uow.Factory (pgxv5.pgUOW nat) World :=
  pgxv5.asFactory (pgxv5.mkFactory natRegistry).
Definition sqlFactory : uow.Factory (stdsql.sqlUOW nat) World :=
  stdsql.asFactory (stdsql.mkFactory natRegistry).

(** Actions that touch nothing: one returns a result, one returns an error,
    one panics. *)
Definition insertFailed : error := errorString "insert failed".

Definition succeedingAction {U W : Type} : TxActionWithResult U W nat :=
  fun u w => (Returned (Some 7, None), u, w).
Definition failingAction {U W : Type} : TxActionWithResult U W nat :=
  fun u w => (Returned (None, Some insertFailed), u, w).
Definition panickingAction {U W : Type} : TxActionWithResult U W nat :=
  fun u w => (Panicked (PanicString "boom"), u, w).

(** The UoW of each adapter as its factory builds it in a world without
    calls, and as a successful [Begin] with the default options leaves it;
    the worlds after the acquisition and after that [Begin]. *)
Definition pgFresh : pgxv5.pgUOW nat := pgxv5.newPgUOW 0 natRegistry.
Definition sqlFresh : stdsql.sqlUOW nat := stdsql.newSQLUOW natRegistry.
Definition pgActive : pgxv5.pgUOW nat := pgxv5.mkPgUOW (Some 1) 2 0 natRegistry.
Definition sqlActive : stdsql.sqlUOW nat := stdsql.mkSqlUOW (Some 0) 1 natRegistry.

Definition pgAcquired (d : Driver) : World := mkWorld [EvAcquire] d.
Definition pgBegun (d : Driver) : World :=
  mkWorld [EvAcquire; EvPgxBeginTx 0 (pgx.mkTxOptions pgx.ReadCommitted pgx.ReadWrite)] d.
Definition sqlBegun (d : Driver) : World :=
  mkWorld [EvSqlBeginTx DefaultTxOptions] d.

(* ================================================================== *)
(** ** errors.go: the Error methods                                    *)
(* ================================================================== *)

Definition newline : string := String (Ascii.ascii_of_nat 10) EmptyString.

Definition rollbackPrefix : string := "failed to rollback transaction: ".
Definition commitPrefix : string := "failed to commit transaction: ".
Definition startPrefix : string := "failed to start transaction: ".

(** What [fmt.Errorf] prints for a nil operand of [%w]. *)
Definition nilOperand : string := "%!w(<nil>)".

(** [e.Error()].  A join prints its members one per line ([errors.Join]
    never builds an empty one); each wrapper of errors.go prints
    [fmt.Errorf(prefix + "%w", e.Err).Error()]. *)
Fixpoint Error_ (e : error) : string :=
  match e with
  | errorString msg => msg
  | wrapError prefix Err => String.append prefix (Error_ Err)
  | joinError errs =>
      (fix lines (l : list error) : string :=
         match l with
         | [] => ""
         | x :: rest =>
             match rest with
             | [] => Error_ x
             | _ :: _ => String.append (Error_ x) (String.append newline (lines rest))
             end
         end) errs
  | FailedToRollbackError Err =>
      String.append rollbackPrefix
        match Err with Some c => Error_ c | None => nilOperand end
  | FailedToCommitError Err =>
      String.append commitPrefix
        match Err with Some c => Error_ c | None => nilOperand end
  | FailedToStartTransactionError Err =>
      String.append startPrefix
        match Err with Some c => Error_ c | None => nilOperand end
  end.

(* ================================================================== *)
(** ** Sequences of calls on one UoW                                   *)
(* ================================================================== *)

(** A call of one of the three lifecycle methods of the interface. *)
Inductive Op (O : Type) : Type :=
| OpBegin (options : O)
| OpCommit
| OpRollback.
Arguments OpBegin {O} options.
Arguments OpCommit {O}.
Arguments OpRollback {O}.

Section Ops.
Context {U W R O : Type} `{UOW U W R O}.

Definition step (op : Op O) (u : U) (w : W) : option error * U * W :=
  match op with
  | OpBegin options => Begin options u w
  | OpCommit => Commit u w
  | OpRollback => Rollback u w
  end.

(** The UoW and the world after the calls, made in order. *)
Fixpoint runOps (ops : list (Op O)) (u : U) (w : W) : U * W :=
  match ops with
  | [] => (u, w)
  | op :: rest =>
      match step op u w with
      | (_, u', w') => runOps rest u' w'
      end
  end.
End Ops.

Definition isAcquire (e : Event) : bool :=
  match e with EvAcquire => true | _ => false end.
Definition acquires (w : World) : nat := count isAcquire (trace w).

(** A driver whose pool has no connection to give. *)
Definition poolExhausted : error := errorString "pool exhausted".
Definition acquireFailsDriver : Driver :=
  fun _ e => if isAcquire e then Some poolExhausted else None.

(** What the adapters keep true of a UoW in a world: without a handle the
    registry is the zero value; a stored handle names a native begin call of
    the trace (on the UoW's own connection for pgx) that the driver accepted,
    and the registry is the one the factory function builds from it. *)
Definition pgBound {R : Type} `{GoZero R} (u : pgxv5.pgUOW R) (w : World) : Prop :=
  match pgxv5.tx u with
  | None => pgxv5.repoRegistry u = zeroValue
  | Some t =>
      pgxv5.repoRegistry u = pgxv5.repoRegistryFactory u t /\
      exists o, nth_error (trace w) t = Some (EvPgxBeginTx (pgxv5.conn u) o) /\
                driver w (firstn t (trace w)) (EvPgxBeginTx (pgxv5.conn u) o) = None
  end.

Definition sqlBound {R : Type} `{GoZero R} (v : stdsql.sqlUOW R) (w : World) : Prop :=
  match stdsql.tx v with
  | None => stdsql.repoRegistry v = zeroValue
  | Some t =>
      stdsql.repoRegistry v = stdsql.repoRegistryFactory v t /\
      exists o, nth_error (trace w) t = Some (EvSqlBeginTx o) /\
                driver w (firstn t (trace w)) (EvSqlBeginTx o) = None
  end.

(** The native call that finalises a run: a rollback when the action
    returned an error, a commit otherwise. *)
Definition finalCall (err : option error) (t : TxHandle) : Event :=
  match err with
  | Some _ => EvRollback t
  | None => EvCommit t
  end.

(** A run that went all the way: the factory gave a UoW, [Begin] returned
    nil, the action returned [res] and a nil error, [Commit] returned nil,
    and the run ends in the state that [Commit] left. *)
Definition committedRun {U W R O T A : Type} `{UOW U W R O}
    (factory : Factory U W) (action : TxActionWithResult U W T)
    (options : O) (w : W) (res : option T) (r : Run A U W) : Prop :=
  exists uow0 w1 uow1 w2 uow2 w3 uow3 w4,
    NewUOW factory w = (inr uow0, w1) /\
    Begin options uow0 w1 = (None, uow1, w2) /\
    action uow1 w2 = (Returned (res, None), uow2, w3) /\
    Commit uow2 w3 = (None, uow3, w4) /\
    uow_final r = Some uow3 /\ world_final r = w4.

(* ================================================================== *)
(** ** Counting the calls that reach a UoW                             *)
(* ================================================================== *)


Section Counting.
Context {U W R O : Type} `{UOW U W R O}.






End Counting.

(* ================================================================== *)
(** ** Basic facts about traces                                        *)
(* ================================================================== *)

Lemma count_record (p : Event -> bool) (e : Event) (w : World) :
  count p (trace (record e w)) = count p (trace w) + (if p e then 1 else 0).
Proof.
  unfold count, record; simpl.
  rewrite filter_app, length_app; simpl.
  destruct (p e); reflexivity.
Qed.

Lemma filter_record (p : Event -> bool) (e : Event) (w : World) :
  filter p (trace (record e w)) = filter p (trace w) ++ (if p e then [e] else []).
Proof.
  unfold record; simpl. rewrite filter_app; simpl.
  destruct (p e); reflexivity.
Qed.

Lemma nativeNew_ok (e : Event) (w : World) :
  driver w (trace w) e = None ->
  nativeNew e w = (inr (length (trace w)), record e w).
Proof. intros E. unfold nativeNew, native. rewrite E. reflexivity. Qed.

Lemma nativeNew_err (e : Event) (w : World) (err : error) :
  driver w (trace w) e = Some err ->
  nativeNew e w = (inl err, record e w).
Proof. intros E. unfold nativeNew, native. rewrite E. reflexivity. Qed.

Ltac count_simpl :=
  unfold commits, rollbacks, releases, begins, finals, conn_Release, pool_Close,
         tx_Commit, tx_Rollback, native in *;
  cbn [fst snd];
  rewrite ?count_record;
  cbn [isFinal isCommit isRollback isRelease isBegin orb].

(* ================================================================== *)
(** ** The isolation-level mapping                                     *)
(* ================================================================== *)

(** C7 (amended).  For every non-nil [*sql.TxOptions] the mapping sends the
    four levels its switch names to the pgx level of the same name, every
    other level to pgx [ReadCommitted], [ReadOnly = true] to pgx [ReadOnly]
    and [ReadOnly = false] to pgx [ReadWrite]; on the four named levels it is
    one-to-one.  A nil options pointer maps to the zero [pgx.TxOptions]. *)
Theorem mapSQLTxOptionsToPgx_mapping (o o' : sql.TxOptions) :
  let p := mapSQLTxOptionsToPgx (Some o) in
  let p' := mapSQLTxOptionsToPgx (Some o') in
  (sql.Isolation o = sql.LevelReadUncommitted -> pgx.IsoLevel p = pgx.ReadUncommitted) /\
  (sql.Isolation o = sql.LevelReadCommitted -> pgx.IsoLevel p = pgx.ReadCommitted) /\
  (sql.Isolation o = sql.LevelRepeatableRead -> pgx.IsoLevel p = pgx.RepeatableRead) /\
  (sql.Isolation o = sql.LevelSerializable -> pgx.IsoLevel p = pgx.Serializable) /\
  (~ recognised (sql.Isolation o) -> pgx.IsoLevel p = pgx.ReadCommitted) /\
  (sql.ReadOnly o = true -> pgx.AccessMode p = pgx.ReadOnly) /\
  (sql.ReadOnly o = false -> pgx.AccessMode p = pgx.ReadWrite) /\
  (recognised (sql.Isolation o) -> recognised (sql.Isolation o') ->
   pgx.IsoLevel p = pgx.IsoLevel p' -> sql.Isolation o = sql.Isolation o') /\
  mapSQLTxOptionsToPgx None = pgx.zeroTxOptions.
Proof.
  destruct o as [l ro], o' as [l' ro']; simpl.
  repeat split.
  - intros ->; reflexivity.
  - intros ->; reflexivity.
  - intros ->; reflexivity.
  - intros ->; reflexivity.
  - intros N. unfold recognised in N. unfold mapIsolation.
    destruct (Z.eqb_spec l sql.LevelReadUncommitted); [tauto|].
    destruct (Z.eqb_spec l sql.LevelReadCommitted); [tauto|].
    destruct (Z.eqb_spec l sql.LevelRepeatableRead); [tauto|].
    destruct (Z.eqb_spec l sql.LevelSerializable); [tauto|].
    reflexivity.
  - intros ->; reflexivity.
  - intros ->; reflexivity.
  - unfold recognised.
    intros [-> | [-> | [-> | ->]]] [-> | [-> | [-> | ->]]]; simpl;
      intros E; try reflexivity; discriminate E.
Qed.

(** The mapping at [sql.LevelSnapshot], read-only: a level the switch does
    not name. *)
Lemma mapSQLTxOptionsToPgx_mapping_witness :
  ~ recognised sql.LevelSnapshot /\
  pgx.IsoLevel (mapSQLTxOptionsToPgx (Some (sql.mkTxOptions sql.LevelSnapshot true)))
    = pgx.ReadCommitted /\
  pgx.AccessMode (mapSQLTxOptionsToPgx (Some (sql.mkTxOptions sql.LevelSnapshot true)))
    = pgx.ReadOnly.
Proof.
  assert (N : ~ recognised sql.LevelSnapshot).
  { unfold recognised. intros [E | [E | [E | E]]]; discriminate E. }
  pose proof (mapSQLTxOptionsToPgx_mapping
                (sql.mkTxOptions sql.LevelSnapshot true)
                (sql.mkTxOptions sql.LevelSnapshot true)) as M.
  simpl in M.
  destruct M as (_ & _ & _ & _ & Other & RO & _).
  split; [exact N|].
  split; [exact (Other N) | exact (RO eq_refl)].
Defined.

(** C7 as stated fails on the unspecified input: nil options give an empty
    isolation level and an empty access mode. *)
Lemma mapSQLTxOptionsToPgx_nil_counterexample :
  pgx.IsoLevel (mapSQLTxOptionsToPgx None) = "" /\
  pgx.IsoLevel (mapSQLTxOptionsToPgx None) <> pgx.ReadCommitted /\
  pgx.AccessMode (mapSQLTxOptionsToPgx None) <> pgx.ReadWrite.
Proof.
  repeat split; simpl; discriminate.
Qed.

(* ================================================================== *)
(** ** The adapters: single calls                                      *)
(* ================================================================== *)

Section AdapterCalls.
Context {R : Type}.
Implicit Types (u : pgxv5.pgUOW R) (v : stdsql.sqlUOW R) (w : World).

Lemma pg_Commit_active u w t :
  pgxv5.tx u = Some t ->
  pgxv5.Commit u w =
    (driver w (trace w) (EvCommit t), u,
     conn_Release (pgxv5.conn u) (record (EvCommit t) w)).
Proof. intros E. unfold pgxv5.Commit. rewrite E. reflexivity. Qed.

Lemma pg_Rollback_active u w t :
  pgxv5.tx u = Some t ->
  pgxv5.Rollback u w =
    (driver w (trace w) (EvRollback t), u,
     conn_Release (pgxv5.conn u) (record (EvRollback t) w)).
Proof. intros E. unfold pgxv5.Rollback. rewrite E. reflexivity. Qed.

Lemma sql_Commit_active v w t :
  stdsql.tx v = Some t ->
  stdsql.Commit v w = (driver w (trace w) (EvCommit t), v, record (EvCommit t) w).
Proof. intros E. unfold stdsql.Commit. rewrite E. reflexivity. Qed.

Lemma sql_Rollback_active v w t :
  stdsql.tx v = Some t ->
  stdsql.Rollback v w = (driver w (trace w) (EvRollback t), v, record (EvRollback t) w).
Proof. intros E. unfold stdsql.Rollback. rewrite E. reflexivity. Qed.

Lemma pg_Begin_failed (o : option sql.TxOptions) u w err u' w' :
  pgxv5.Begin o u w = (Some err, u', w') -> u' = u.
Proof.
  unfold pgxv5.Begin, conn_BeginTx, nativeNew, native.
  destruct (driver w (trace w) _); intros E; inversion E; reflexivity.
Qed.

Lemma sql_Begin_failed (o : option sql.TxOptions) v w err v' w' :
  stdsql.Begin o v w = (Some err, v', w') -> v' = v.
Proof.
  unfold stdsql.Begin, db_BeginTx, nativeNew, native.
  destruct (driver w (trace w) _); intros E; inversion E; reflexivity.
Qed.

Lemma pg_finalise_active (f : Finaliser) u w t :
  pgxv5.tx u = Some t ->
  exists err w', finalise f u w = (err, u, w') /\ finals w' = finals w + 1.
Proof.
  intros E. destruct f; simpl.
  - rewrite (@pg_Commit_active u w t E). do 2 eexists. split; [reflexivity|].
    count_simpl. lia.
  - rewrite (@pg_Rollback_active u w t E). do 2 eexists. split; [reflexivity|].
    count_simpl. lia.
Qed.

Lemma sql_finalise_active (f : Finaliser) v w t :
  stdsql.tx v = Some t ->
  exists err w', finalise f v w = (err, v, w') /\ finals w' = finals w + 1.
Proof.
  intros E. destruct f; simpl.
  - rewrite (@sql_Commit_active v w t E). do 2 eexists. split; [reflexivity|].
    count_simpl. lia.
  - rewrite (@sql_Rollback_active v w t E). do 2 eexists. split; [reflexivity|].
    count_simpl. lia.
Qed.

Lemma pg_finaliseAll_active (fs : list Finaliser) u t :
  pgxv5.tx u = Some t ->
  forall w, exists errs w',
    finaliseAll fs u w = (errs, u, w') /\
    length errs = length fs /\ finals w' = finals w + length fs.
Proof.
  intros E. induction fs as [|f fs IH]; intros w.
  - exists [], w. simpl. repeat split; lia.
  - destruct (@pg_finalise_active f u w t E) as (err & w1 & F & C1).
    destruct (IH w1) as (errs & w2 & FA & L & C2).
    exists (err :: errs), w2. cbn [finaliseAll]. rewrite F, FA.
    repeat split; simpl; lia.
Qed.

Lemma sql_finaliseAll_active (fs : list Finaliser) v t :
  stdsql.tx v = Some t ->
  forall w, exists errs w',
    finaliseAll fs v w = (errs, v, w') /\
    length errs = length fs /\ finals w' = finals w + length fs.
Proof.
  intros E. induction fs as [|f fs IH]; intros w.
  - exists [], w. simpl. repeat split; lia.
  - destruct (@sql_finalise_active f v w t E) as (err & w1 & F & C1).
    destruct (IH w1) as (errs & w2 & FA & L & C2).
    exists (err :: errs), w2. cbn [finaliseAll]. rewrite F, FA.
    repeat split; simpl; lia.
Qed.

End AdapterCalls.

(* ================================================================== *)
(** ** The adapters: lifecycle guards                                  *)
(* ================================================================== *)

(** C8 (amended).  On a UoW whose [tx] is nil (no [Begin] was made, or none
    succeeded) the registry accessors fail with "transaction not started"
    (an error from [RepoRegistry], a panic from [MustRepoRegistry]), and
    [Commit] and [Rollback] return [ErrTransactionNotStarted] without any
    native begin, commit or rollback call: the database/sql adapter makes no
    native call at all, the pgx adapter makes exactly one, the release of
    the pooled connection.  A failed [Begin] leaves the UoW as it was. *)
Theorem not_started_is_guarded (R : Type)
    (u : pgxv5.pgUOW R) (v : stdsql.sqlUOW R) (w : World) :
  pgxv5.tx u = None ->
  stdsql.tx v = None ->
  pgxv5.RepoRegistry u = (None, Some ErrTransactionNotStarted) /\
  pgxv5.MustRepoRegistry u = Panicked (PanicString "transaction not started") /\
  stdsql.MustRepoRegistry v = Panicked (PanicString "transaction not started") /\
  pgxv5.Commit u w = (Some ErrTransactionNotStarted, u, conn_Release (pgxv5.conn u) w) /\
  pgxv5.Rollback u w = (Some ErrTransactionNotStarted, u, conn_Release (pgxv5.conn u) w) /\
  txCalls (conn_Release (pgxv5.conn u) w) = txCalls w /\
  stdsql.Commit v w = (Some ErrTransactionNotStarted, v, w) /\
  stdsql.Rollback v w = (Some ErrTransactionNotStarted, v, w) /\
  (forall o err u' w', pgxv5.Begin o u w = (Some err, u', w') -> pgxv5.tx u' = None) /\
  (forall o err v' w', stdsql.Begin o v w = (Some err, v', w') -> stdsql.tx v' = None).
Proof.
  intros Eu Ev.
  unfold pgxv5.RepoRegistry, pgxv5.MustRepoRegistry, stdsql.MustRepoRegistry,
         pgxv5.Commit, pgxv5.Rollback, stdsql.Commit, stdsql.Rollback.
  rewrite Eu, Ev.
  repeat split.
  - unfold txCalls, conn_Release. rewrite filter_record. simpl. apply app_nil_r.
  - intros o err u' w' B. apply pg_Begin_failed in B. subst u'. exact Eu.
  - intros o err v' w' B. apply sql_Begin_failed in B. subst v'. exact Ev.
Qed.

(** The guards on the UoWs the factories build, before any [Begin]. *)
Lemma not_started_is_guarded_witness :
  pgxv5.tx pgFresh = None /\
  stdsql.tx sqlFresh = None /\
  pgxv5.RepoRegistry pgFresh = (None, Some ErrTransactionNotStarted) /\
  pgxv5.Commit pgFresh (pgAcquired okDriver)
    = (Some ErrTransactionNotStarted, pgFresh, mkWorld [EvAcquire; EvRelease 0] okDriver) /\
  stdsql.Rollback sqlFresh (emptyWorld okDriver)
    = (Some ErrTransactionNotStarted, sqlFresh, emptyWorld okDriver).
Proof.
  pose proof (@not_started_is_guarded nat pgFresh sqlFresh (pgAcquired okDriver)
                eq_refl eq_refl) as G.
  pose proof (@not_started_is_guarded nat pgFresh sqlFresh (emptyWorld okDriver)
                eq_refl eq_refl) as G'.
  destruct G as (RR & _ & _ & C & _).
  destruct G' as (_ & _ & _ & _ & _ & _ & _ & Rb & _).
  split; [reflexivity|].
  split; [reflexivity|].
  split; [exact RR|].
  split; [exact C | exact Rb].
Defined.

(** C8 as stated fails on the pgx adapter: on the UoW its factory builds,
    before any [Begin], [Commit] and [Rollback] return
    [ErrTransactionNotStarted] and still make a native call, the release of
    the connection. *)
Lemma not_started_release_counterexample :
  NewUOW pgFactory (emptyWorld okDriver) = (inr pgFresh, pgAcquired okDriver) /\
  pgxv5.tx pgFresh = None /\
  pgxv5.Commit pgFresh (pgAcquired okDriver)
    = (Some ErrTransactionNotStarted, pgFresh,
       mkWorld [EvAcquire; EvRelease 0] okDriver) /\
  pgxv5.Rollback pgFresh (pgAcquired okDriver)
    = (Some ErrTransactionNotStarted, pgFresh,
       mkWorld [EvAcquire; EvRelease 0] okDriver) /\
  trace (snd (pgxv5.Commit pgFresh (pgAcquired okDriver)))
    <> trace (pgAcquired okDriver) /\
  releases (snd (pgxv5.Commit pgFresh (pgAcquired okDriver)))
    = releases (pgAcquired okDriver) + 1.
Proof.
  repeat split. discriminate.
Qed.

(** C10.  Every call of the pgx adapter's [Commit] or [Rollback] releases the
    UoW's pooled connection exactly once, after whatever else the call did:
    nothing when [tx] is nil, one native commit or rollback otherwise,
    whether or not that native call fails. *)
Theorem pg_finalise_releases_once (R : Type) (u : pgxv5.pgUOW R) (w : World) :
  let native_call (e : TxHandle -> Event) :=
    match pgxv5.tx u with None => [] | Some t => [e t] end in
  trace (snd (pgxv5.Commit u w))
    = trace w ++ native_call EvCommit ++ [EvRelease (pgxv5.conn u)] /\
  trace (snd (pgxv5.Rollback u w))
    = trace w ++ native_call EvRollback ++ [EvRelease (pgxv5.conn u)] /\
  releases (snd (pgxv5.Commit u w)) = releases w + 1 /\
  releases (snd (pgxv5.Rollback u w)) = releases w + 1 /\
  fst (fst (pgxv5.Commit u w))
    = match pgxv5.tx u with
      | None => Some ErrTransactionNotStarted
      | Some t => driver w (trace w) (EvCommit t)
      end /\
  fst (fst (pgxv5.Rollback u w))
    = match pgxv5.tx u with
      | None => Some ErrTransactionNotStarted
      | Some t => driver w (trace w) (EvRollback t)
      end.
Proof.
  unfold pgxv5.Commit, pgxv5.Rollback.
  destruct (pgxv5.tx u) as [t|]; cbn zeta.
  - repeat split; count_simpl; try lia; simpl; rewrite <- app_assoc; reflexivity.
  - repeat split; count_simpl; try lia; reflexivity.
Qed.

(** C5 (amended).  The adapters never clear [tx]: on a UoW whose [Begin]
    succeeded every [Commit] or [Rollback] call, the first as well as any
    later one, issues one native call on the stored transaction, returns what
    the driver answers and leaves the UoW unchanged.  A sequence of such calls
    therefore reaches the driver once per call. *)
Theorem finalising_again_reaches_the_driver (R : Type)
    (u : pgxv5.pgUOW R) (v : stdsql.sqlUOW R) (t t' : TxHandle)
    (fs : list Finaliser) (w : World) :
  pgxv5.tx u = Some t ->
  stdsql.tx v = Some t' ->
  pgxv5.Commit u w
    = (driver w (trace w) (EvCommit t), u,
       conn_Release (pgxv5.conn u) (record (EvCommit t) w)) /\
  pgxv5.Rollback u w
    = (driver w (trace w) (EvRollback t), u,
       conn_Release (pgxv5.conn u) (record (EvRollback t) w)) /\
  stdsql.Commit v w = (driver w (trace w) (EvCommit t'), v, record (EvCommit t') w) /\
  stdsql.Rollback v w = (driver w (trace w) (EvRollback t'), v, record (EvRollback t') w) /\
  (exists errs w', finaliseAll fs u w = (errs, u, w') /\
     length errs = length fs /\ finals w' = finals w + length fs) /\
  (exists errs w', finaliseAll fs v w = (errs, v, w') /\
     length errs = length fs /\ finals w' = finals w + length fs).
Proof.
  intros Eu Ev.
  split; [apply pg_Commit_active; exact Eu|].
  split; [apply pg_Rollback_active; exact Eu|].
  split; [apply sql_Commit_active; exact Ev|].
  split; [apply sql_Rollback_active; exact Ev|].
  split.
  - apply (@pg_finaliseAll_active R fs u t Eu w).
  - apply (@sql_finaliseAll_active R fs v t' Ev w).
Qed.

(** The UoWs and worlds named above are the ones the adapters reach. *)
Lemma pgActive_reached :
  NewUOW pgFactory (emptyWorld strictDriver) = (inr pgFresh, pgAcquired strictDriver) /\
  pgxv5.Begin DefaultTxOptions pgFresh (pgAcquired strictDriver)
    = (None, pgActive, pgBegun strictDriver).
Proof. split; reflexivity. Qed.

Lemma sqlActive_reached :
  NewUOW sqlFactory (emptyWorld strictDriver) = (inr sqlFresh, emptyWorld strictDriver) /\
  stdsql.Begin DefaultTxOptions sqlFresh (emptyWorld strictDriver)
    = (None, sqlActive, sqlBegun strictDriver).
Proof. split; reflexivity. Qed.

(** Two commits in a row on a begun pgx UoW: two native calls. *)
Lemma finalising_again_reaches_the_driver_witness :
  pgxv5.tx pgActive = Some 1 /\
  stdsql.tx sqlActive = Some 0 /\
  exists errs w',
    finaliseAll [DoCommit; DoCommit] pgActive (pgBegun strictDriver)
      = (errs, pgActive, w') /\
    length errs = 2 /\ finals w' = finals (pgBegun strictDriver) + 2.
Proof.
  pose proof (@finalising_again_reaches_the_driver nat pgActive sqlActive 1 0
                [DoCommit; DoCommit] (pgBegun strictDriver) eq_refl eq_refl) as G.
  destruct G as (_ & _ & _ & _ & P & _).
  split; [reflexivity|].
  split; [reflexivity|].
  exact P.
Defined.

(** C5 as stated fails: after [Begin] and one [Commit], a second [Commit]
    (or a [Rollback]) is sent to the native transaction again; the refusal
    comes from the driver, after the call. *)
Lemma second_finalise_counterexample :
  (* pgx: NewUOW, Begin, Commit, Commit *)
  pgxv5.Begin DefaultTxOptions pgFresh (pgAcquired strictDriver)
    = (None, pgActive, pgBegun strictDriver) /\
  finaliseAll [DoCommit; DoCommit] pgActive (pgBegun strictDriver)
    = ([None; Some txDone], pgActive,
       mkWorld (trace (pgBegun strictDriver)
                ++ [EvCommit 1; EvRelease 0; EvCommit 1; EvRelease 0]) strictDriver) /\
  (* database/sql: NewUOW, Begin, Commit, Rollback *)
  stdsql.Begin DefaultTxOptions sqlFresh (emptyWorld strictDriver)
    = (None, sqlActive, sqlBegun strictDriver) /\
  finaliseAll [DoCommit; DoRollback] sqlActive (sqlBegun strictDriver)
    = ([None; Some txDone], sqlActive,
       mkWorld (trace (sqlBegun strictDriver) ++ [EvCommit 0; EvRollback 0])
               strictDriver) /\
  finals (snd (finaliseAll [DoCommit; DoCommit] pgActive (pgBegun strictDriver))) = 2 /\
  finals (snd (finaliseAll [DoCommit; DoRollback] sqlActive (sqlBegun strictDriver))) = 2.
Proof.
  repeat split.
Qed.

(** C6 (amended).  [Begin] never looks at [tx]: on a UoW that is already
    Active it issues another native begin; when that succeeds it returns nil
    and overwrites the stored handle and registry with the new transaction's,
    and when it fails it returns the error (pgx: as is; database/sql: wrapped
    with "failed to begin transaction: ") and leaves the UoW unchanged. *)
Theorem Begin_on_active_overwrites (R : Type)
    (u : pgxv5.pgUOW R) (v : stdsql.sqlUOW R) (t t' : TxHandle)
    (o : option sql.TxOptions) (w : World) :
  pgxv5.tx u = Some t ->
  stdsql.tx v = Some t' ->
  t < length (trace w) ->
  t' < length (trace w) ->
  let pgBegin := EvPgxBeginTx (pgxv5.conn u) (mapSQLTxOptionsToPgx o) in
  let fresh := length (trace w) in
  (driver w (trace w) pgBegin = None ->
     pgxv5.Begin o u w
       = (None,
          pgxv5.mkPgUOW (Some fresh) (pgxv5.repoRegistryFactory u fresh)
                        (pgxv5.conn u) (pgxv5.repoRegistryFactory u),
          record pgBegin w)) /\
  (forall err, driver w (trace w) pgBegin = Some err ->
     pgxv5.Begin o u w = (Some err, u, record pgBegin w)) /\
  (driver w (trace w) (EvSqlBeginTx o) = None ->
     stdsql.Begin o v w
       = (None,
          stdsql.mkSqlUOW (Some fresh) (stdsql.repoRegistryFactory v fresh)
                          (stdsql.repoRegistryFactory v),
          record (EvSqlBeginTx o) w)) /\
  (forall err, driver w (trace w) (EvSqlBeginTx o) = Some err ->
     stdsql.Begin o v w
       = (Some (wrapError "failed to begin transaction: " err), v,
          record (EvSqlBeginTx o) w)) /\
  Some fresh <> pgxv5.tx u /\
  Some fresh <> stdsql.tx v /\
  begins (record pgBegin w) = begins w + 1 /\
  begins (record (EvSqlBeginTx o) w) = begins w + 1.
Proof.
  intros Eu Ev Lt Lt'. cbn zeta.
  unfold pgxv5.Begin, stdsql.Begin, conn_BeginTx, db_BeginTx.
  repeat split.
  - intros D. rewrite (nativeNew_ok _ _ D). reflexivity.
  - intros err D. rewrite (nativeNew_err _ _ D). reflexivity.
  - intros D. rewrite (nativeNew_ok _ _ D). reflexivity.
  - intros err D. rewrite (nativeNew_err _ _ D). reflexivity.
  - rewrite Eu. intros E. inversion E. lia.
  - rewrite Ev. intros E. inversion E. lia.
  - count_simpl. lia.
  - count_simpl. lia.
Qed.

(** A second [Begin] on the begun pgx UoW: accepted, and the handle moves
    from transaction 1 to transaction 2. *)
Lemma Begin_on_active_overwrites_witness :
  pgxv5.tx pgActive = Some 1 /\
  stdsql.tx sqlActive = Some 0 /\
  1 < length (trace (pgBegun okDriver)) /\
  0 < length (trace (pgBegun okDriver)) /\
  pgxv5.Begin SerializableTxOptions pgActive (pgBegun okDriver)
    = (None, pgxv5.mkPgUOW (Some 2) 3 0 natRegistry,
       record (EvPgxBeginTx 0 (pgx.mkTxOptions pgx.Serializable pgx.ReadWrite))
              (pgBegun okDriver)).
Proof.
  pose proof (@Begin_on_active_overwrites nat pgActive sqlActive 1 0
                SerializableTxOptions (pgBegun okDriver) eq_refl eq_refl
                (le_n 2) (le_S 1 1 (le_n 1))) as G.
  cbn zeta in G. destruct G as (Ok & _).
  split; [reflexivity|].
  split; [reflexivity|].
  split; [exact (le_n 2)|].
  split; [exact (le_S 1 1 (le_n 1))|].
  exact (Ok eq_refl).
Defined.

(** C6 as stated fails: neither adapter rejects a second [Begin] on an Active
    UoW.  Both return nil and replace the stored handle. *)
Lemma second_Begin_counterexample :
  (* pgx *)
  pgxv5.Begin DefaultTxOptions pgFresh (pgAcquired okDriver)
    = (None, pgActive, pgBegun okDriver) /\
  fst (fst (pgxv5.Begin DefaultTxOptions pgActive (pgBegun okDriver))) = None /\
  pgxv5.tx (snd (fst (pgxv5.Begin DefaultTxOptions pgActive (pgBegun okDriver))))
    = Some 2 /\
  pgxv5.tx pgActive = Some 1 /\
  (* database/sql *)
  stdsql.Begin DefaultTxOptions sqlFresh (emptyWorld okDriver)
    = (None, sqlActive, sqlBegun okDriver) /\
  fst (fst (stdsql.Begin DefaultTxOptions sqlActive (sqlBegun okDriver))) = None /\
  stdsql.tx (snd (fst (stdsql.Begin DefaultTxOptions sqlActive (sqlBegun okDriver))))
    = Some 1 /\
  stdsql.tx sqlActive = Some 0.
Proof.
  repeat split.
Qed.

(* ================================================================== *)
(** ** The helpers                                                     *)
(* ================================================================== *)

Section HelperFacts.
Context {U W R O : Type} `{UOW U W R O}.
Variables (factory : Factory U W) (options : O) (w : W).

(** What both revisions do once the action has returned an error. *)
Lemma Wrapping_action_error {T : Type} (action : TxActionWithResult U W T)
    uow0 w1 uow1 w2 res err uow2 w3 rollbackErr uow3 w4 :
  NewUOW factory w = (inr uow0, w1) ->
  Begin options uow0 w1 = (None, uow1, w2) ->
  action uow1 w2 = (Returned (res, Some err), uow2, w3) ->
  Rollback uow2 w3 = (rollbackErr, uow3, w4) ->
  Wrapping.RunTxWithResult factory action options w
    = mkRun (Returned
               (None,
                Some match rollbackErr with
                     | None => err
                     | Some rbErr => FailedToRollbackError (Some (joinError [err; rbErr]))
                     end))
            (Some uow3) w4 [CallNewUOW; CallBegin; CallAction; CallRollback].
Proof.
  intros N B A Rb. unfold Wrapping.RunTxWithResult.
  rewrite N, B, A, Rb. destruct rollbackErr; reflexivity.
Qed.

Lemma Deferred_action_error {T : Type} (action : TxActionWithResult U W T)
    uow0 w1 uow1 w2 res err uow2 w3 rollbackErr uow3 w4 :
  NewUOW factory w = (inr uow0, w1) ->
  Begin options uow0 w1 = (None, uow1, w2) ->
  action uow1 w2 = (Returned (res, Some err), uow2, w3) ->
  Rollback uow2 w3 = (rollbackErr, uow3, w4) ->
  Deferred.RunTxWithResult factory action options w
    = mkRun (Returned (res, Some err)) (Some uow3) w4
            [CallNewUOW; CallBegin; CallAction; CallRollback].
Proof.
  intros N B A Rb. unfold Deferred.RunTxWithResult, Deferred.deferred.
  rewrite N, B, A, Rb. reflexivity.
Qed.

Lemma carries_joined (err rbErr : error) :
  carries err (FailedToRollbackError (Some (joinError [err; rbErr]))) /\
  carries rbErr (FailedToRollbackError (Some (joinError [err; rbErr]))).
Proof.
  split; apply carries_rollback.
  - apply carries_join with (e := err); [left; reflexivity | apply carries_self].
  - apply carries_join with (e := rbErr);
      [right; left; reflexivity | apply carries_self].
Qed.

(** The error component and everything a run leaves behind do not depend
    on the result the action returns. *)
Lemma Wrapping_errorOf {T : Type} (action : TxActionWithResult U W T) :
  errorOf (Wrapping.RunTxWithResult factory action options w)
    = Wrapping.RunTx factory (forgetResult action) options w.
Proof.
  unfold Wrapping.RunTx, Wrapping.RunTxWithResult, nilResult, forgetResult, errorOf.
  destruct (NewUOW factory w) as [[e|u0] w1]; [reflexivity|].
  destruct (Begin options u0 w1) as [[[e|] u1] w2]; [reflexivity|].
  destruct (action u1 w2) as [[[[res [e|]]|p] u2] w3]; cbn [mapOutcome snd].
  - destruct (Rollback u2 w3) as [[[e'|] u3] w4]; reflexivity.
  - destruct (Commit u2 w3) as [[[e'|] u3] w4]; reflexivity.
  - reflexivity.
Qed.

Lemma Deferred_errorOf {T : Type} (action : TxActionWithResult U W T) :
  errorOf (Deferred.RunTxWithResult factory action options w)
    = Deferred.RunTx factory (forgetResult action) options w.
Proof.
  unfold Deferred.RunTx, Deferred.RunTxWithResult, Deferred.deferred,
         nilResult, forgetResult, errorOf.
  destruct (NewUOW factory w) as [[e|u0] w1]; [reflexivity|].
  destruct (Begin options u0 w1) as [[[e|] u1] w2]; [reflexivity|].
  destruct (action u1 w2) as [[[[res [e|]]|p] u2] w3]; cbn [mapOutcome snd].
  - destruct (Rollback u2 w3) as [[e' u3] w4]; reflexivity.
  - destruct (Commit u2 w3) as [[e' u3] w4]; reflexivity.
  - destruct (Rollback u2 w3) as [[e' u3] w4]; reflexivity.
Qed.

(** Actions that agree at every UoW and world run alike. *)
Lemma Wrapping_RunTx_ext (a b : TxAction U W) :
  (forall u x, a u x = b u x) ->
  Wrapping.RunTx factory a options w = Wrapping.RunTx factory b options w.
Proof.
  intros E.
  unfold Wrapping.RunTx, Wrapping.RunTxWithResult, nilResult.
  destruct (NewUOW factory w) as [[e|u0] w1]; [reflexivity|].
  destruct (Begin options u0 w1) as [[[e|] u1] w2]; [reflexivity|].
  rewrite E. reflexivity.
Qed.

Lemma Deferred_RunTx_ext (a b : TxAction U W) :
  (forall u x, a u x = b u x) ->
  Deferred.RunTx factory a options w = Deferred.RunTx factory b options w.
Proof.
  intros E.
  unfold Deferred.RunTx, Deferred.RunTxWithResult, nilResult.
  destruct (NewUOW factory w) as [[e|u0] w1]; [reflexivity|].
  destruct (Begin options u0 w1) as [[[e|] u1] w2]; [reflexivity|].
  rewrite E. reflexivity.
Qed.

Lemma forget_unitResult (a : TxAction U W) u x :
  forgetResult (unitResult a) u x = a u x.
Proof.
  unfold forgetResult, unitResult.
  destruct (a u x) as [[[e|p] u'] x']; reflexivity.
Qed.

End HelperFacts.

(** C1 (amended).  When [Begin] succeeded and the action returns a non-nil
    error, both revisions of [RunTxWithResult] call [Rollback] exactly once
    and never [Commit].  If that [Rollback] succeeds both return the action's
    error unchanged.  If it fails, the wrapping revision returns
    [FailedToRollback(errors.Join(err, rollbackErr))], which carries both
    errors, while the deferred revision drops the rollback error and still
    returns the action's error unchanged. *)
Theorem action_error_is_rolled_back
    (U W R O T : Type) (I : UOW U W R O)
    (factory : Factory U W) (action : TxActionWithResult U W T) (options : O) (w : W)
    uow0 w1 uow1 w2 res err uow2 w3 rollbackErr uow3 w4 :
  NewUOW factory w = (inr uow0, w1) ->
  Begin options uow0 w1 = (None, uow1, w2) ->
  action uow1 w2 = (Returned (res, Some err), uow2, w3) ->
  Rollback uow2 w3 = (rollbackErr, uow3, w4) ->
  let wrapping := Wrapping.RunTxWithResult factory action options w in
  let deferred := Deferred.RunTxWithResult factory action options w in
  (* one Rollback, no Commit, and the state the Rollback left *)
  calls wrapping = [CallNewUOW; CallBegin; CallAction; CallRollback] /\
  calls deferred = [CallNewUOW; CallBegin; CallAction; CallRollback] /\
  times CallRollback (calls wrapping) = 1 /\ times CallCommit (calls wrapping) = 0 /\
  times CallRollback (calls deferred) = 1 /\ times CallCommit (calls deferred) = 0 /\
  uow_final wrapping = Some uow3 /\ world_final wrapping = w4 /\
  uow_final deferred = Some uow3 /\ world_final deferred = w4 /\
  (* what the caller gets *)
  (rollbackErr = None ->
     outcome wrapping = Returned (None, Some err) /\
     outcome deferred = Returned (res, Some err)) /\
  (forall rbErr, rollbackErr = Some rbErr ->
     outcome wrapping
       = Returned (None, Some (FailedToRollbackError (Some (joinError [err; rbErr])))) /\
     carries err (FailedToRollbackError (Some (joinError [err; rbErr]))) /\
     carries rbErr (FailedToRollbackError (Some (joinError [err; rbErr]))) /\
     outcome deferred = Returned (res, Some err)).
Proof.
  intros N B A Rb. cbn zeta.
  rewrite (Wrapping_action_error _ _ _ _ N B A Rb).
  rewrite (Deferred_action_error _ _ _ _ N B A Rb).
  cbn [calls uow_final world_final outcome].
  repeat split; try reflexivity.
  - subst rollbackErr. reflexivity.
  - subst rollbackErr. reflexivity.
  - apply carries_joined.
  - apply carries_joined.
Qed.

(** A failing action on the pgx adapter whose rollback fails too. *)
Lemma action_error_is_rolled_back_witness :
  let wrapping :=
    Wrapping.RunTxWithResult pgFactory failingAction DefaultTxOptions
                             (emptyWorld rollbackFailsDriver) in
  NewUOW pgFactory (emptyWorld rollbackFailsDriver)
    = (inr pgFresh, pgAcquired rollbackFailsDriver) /\
  Begin DefaultTxOptions pgFresh (pgAcquired rollbackFailsDriver)
    = (None, pgActive, pgBegun rollbackFailsDriver) /\
  Rollback pgActive (pgBegun rollbackFailsDriver)
    = (Some rollbackFailed, pgActive,
       conn_Release 0 (record (EvRollback 1) (pgBegun rollbackFailsDriver))) /\
  outcome wrapping
    = Returned (None, Some (FailedToRollbackError
                              (Some (joinError [insertFailed; rollbackFailed])))) /\
  times CallRollback (calls wrapping) = 1.
Proof.
  pose proof (@action_error_is_rolled_back
                (pgxv5.pgUOW nat) World nat (option sql.TxOptions) nat _
                pgFactory failingAction DefaultTxOptions
                (emptyWorld rollbackFailsDriver)
                pgFresh (pgAcquired rollbackFailsDriver)
                pgActive (pgBegun rollbackFailsDriver)
                None insertFailed
                pgActive (pgBegun rollbackFailsDriver)
                (Some rollbackFailed) pgActive
                (conn_Release 0 (record (EvRollback 1) (pgBegun rollbackFailsDriver)))
                eq_refl eq_refl eq_refl eq_refl) as G.
  cbn zeta in G.
  destruct G as (_ & _ & Once & _ & _ & _ & _ & _ & _ & _ & _ & Fails).
  destruct (Fails rollbackFailed eq_refl) as (Out & _).
  cbn zeta.
  split; [reflexivity|].
  split; [reflexivity|].
  split; [reflexivity|].
  split; [exact Out | exact Once].
Defined.

(** C1 as stated fails on the deferred revision: the rollback fails, and the
    caller gets the action's error alone. *)
Lemma rollback_error_dropped_counterexample :
  let deferred :=
    Deferred.RunTxWithResult pgFactory failingAction DefaultTxOptions
                             (emptyWorld rollbackFailsDriver) in
  Rollback pgActive (pgBegun rollbackFailsDriver)
    = (Some rollbackFailed, pgActive,
       conn_Release 0 (record (EvRollback 1) (pgBegun rollbackFailsDriver))) /\
  world_final deferred
    = conn_Release 0 (record (EvRollback 1) (pgBegun rollbackFailsDriver)) /\
  outcome deferred = Returned (None, Some insertFailed) /\
  ~ carries rollbackFailed insertFailed.
Proof.
  cbn zeta. repeat split.
  intros C. inversion C.
Qed.

(** C2 (amended).  When [Begin] succeeded and the action panics, the
    deferred revision of [RunTxWithResult] recovers, calls [Rollback] exactly
    once, ignores what it returns, never calls [Commit] and panics again with
    the same value.  The wrapping revision defers nothing: the same panic
    leaves the helper with neither [Rollback] nor [Commit] called. *)
Theorem action_panic_is_reraised
    (U W R O T : Type) (I : UOW U W R O)
    (factory : Factory U W) (action : TxActionWithResult U W T) (options : O) (w : W)
    uow0 w1 uow1 w2 p uow2 w3 rollbackErr uow3 w4 :
  NewUOW factory w = (inr uow0, w1) ->
  Begin options uow0 w1 = (None, uow1, w2) ->
  action uow1 w2 = (Panicked p, uow2, w3) ->
  Rollback uow2 w3 = (rollbackErr, uow3, w4) ->
  Deferred.RunTxWithResult factory action options w
    = mkRun (Panicked p) (Some uow3) w4
            [CallNewUOW; CallBegin; CallAction; CallRollback] /\
  times CallRollback [CallNewUOW; CallBegin; CallAction; CallRollback] = 1 /\
  times CallCommit [CallNewUOW; CallBegin; CallAction; CallRollback] = 0 /\
  Wrapping.RunTxWithResult factory action options w
    = mkRun (Panicked p) (Some uow2) w3 [CallNewUOW; CallBegin; CallAction].
Proof.
  intros N B A Rb.
  unfold Deferred.RunTxWithResult, Deferred.deferred, Wrapping.RunTxWithResult.
  rewrite N, B, A, Rb. repeat split.
Qed.

(** A panicking action on the pgx adapter whose rollback fails. *)
Lemma action_panic_is_reraised_witness :
  let deferred :=
    Deferred.RunTxWithResult pgFactory panickingAction DefaultTxOptions
                             (emptyWorld rollbackFailsDriver) in
  Rollback pgActive (pgBegun rollbackFailsDriver)
    = (Some rollbackFailed, pgActive,
       conn_Release 0 (record (EvRollback 1) (pgBegun rollbackFailsDriver))) /\
  outcome deferred = Panicked (PanicString "boom") /\
  rollbacks (world_final deferred) = 1 /\
  commits (world_final deferred) = 0.
Proof.
  pose proof (@action_panic_is_reraised
                (pgxv5.pgUOW nat) World nat (option sql.TxOptions) nat _
                pgFactory panickingAction DefaultTxOptions
                (emptyWorld rollbackFailsDriver)
                pgFresh (pgAcquired rollbackFailsDriver)
                pgActive (pgBegun rollbackFailsDriver)
                (PanicString "boom")
                pgActive (pgBegun rollbackFailsDriver)
                (Some rollbackFailed) pgActive
                (conn_Release 0 (record (EvRollback 1) (pgBegun rollbackFailsDriver)))
                eq_refl eq_refl eq_refl eq_refl) as G.
  destruct G as (D & _).
  cbn zeta. rewrite D.
  split; [reflexivity|].
  split; [reflexivity|].
  split; reflexivity.
Defined.

(** C2 as stated fails on the wrapping revision: after the panic the
    transaction is neither committed nor rolled back, and the connection is
    still checked out. *)
Lemma panic_not_finalised_counterexample :
  let wrapping :=
    Wrapping.RunTxWithResult pgFactory panickingAction DefaultTxOptions
                             (emptyWorld okDriver) in
  outcome wrapping = Panicked (PanicString "boom") /\
  calls wrapping = [CallNewUOW; CallBegin; CallAction] /\
  world_final wrapping = pgBegun okDriver /\
  commits (world_final wrapping) + rollbacks (world_final wrapping) = 0 /\
  releases (world_final wrapping) = 0.
Proof.
  cbn zeta. repeat split.
Qed.

(** C3 (amended).  When [Begin] succeeded and the action returns a nil
    error, both revisions of [RunTxWithResult] call [Commit] exactly once and
    never [Rollback].  If [Commit] succeeds both return the action's result
    unchanged and a nil error.  If it fails, the wrapping revision returns a
    nil result and [FailedToCommit(commitErr)]; the deferred revision returns
    the commit error itself, unwrapped. *)
Theorem action_success_is_committed
    (U W R O T : Type) (I : UOW U W R O)
    (factory : Factory U W) (action : TxActionWithResult U W T) (options : O) (w : W)
    uow0 w1 uow1 w2 res uow2 w3 commitErr uow3 w4 :
  NewUOW factory w = (inr uow0, w1) ->
  Begin options uow0 w1 = (None, uow1, w2) ->
  action uow1 w2 = (Returned (res, None), uow2, w3) ->
  Commit uow2 w3 = (commitErr, uow3, w4) ->
  let wrapping := Wrapping.RunTxWithResult factory action options w in
  let deferred := Deferred.RunTxWithResult factory action options w in
  calls wrapping = [CallNewUOW; CallBegin; CallAction; CallCommit] /\
  calls deferred = [CallNewUOW; CallBegin; CallAction; CallCommit] /\
  times CallCommit (calls wrapping) = 1 /\ times CallRollback (calls wrapping) = 0 /\
  times CallCommit (calls deferred) = 1 /\ times CallRollback (calls deferred) = 0 /\
  uow_final wrapping = Some uow3 /\ world_final wrapping = w4 /\
  uow_final deferred = Some uow3 /\ world_final deferred = w4 /\
  (commitErr = None ->
     outcome wrapping = Returned (res, None) /\
     outcome deferred = Returned (res, None)) /\
  (forall cErr, commitErr = Some cErr ->
     outcome wrapping = Returned (None, Some (FailedToCommitError (Some cErr))) /\
     carries cErr (FailedToCommitError (Some cErr)) /\
     mapOutcome snd (outcome deferred) = Returned (Some cErr)).
Proof.
  intros N B A C. cbn zeta.
  unfold Deferred.RunTxWithResult, Deferred.deferred, Wrapping.RunTxWithResult.
  rewrite N, B, A, C.
  destruct commitErr as [cErr|]; cbn [calls uow_final world_final outcome app];
    repeat split; try reflexivity; try discriminate.
  - match goal with E : Some _ = Some _ |- _ => inversion E end. reflexivity.
  - apply carries_commit, carries_self.
  - match goal with E : Some _ = Some _ |- _ => inversion E end. reflexivity.
Qed.

(** A succeeding action on the pgx adapter whose commit fails. *)
Lemma action_success_is_committed_witness :
  let wrapping :=
    Wrapping.RunTxWithResult pgFactory succeedingAction DefaultTxOptions
                             (emptyWorld commitFailsDriver) in
  Commit pgActive (pgBegun commitFailsDriver)
    = (Some commitFailed, pgActive,
       conn_Release 0 (record (EvCommit 1) (pgBegun commitFailsDriver))) /\
  outcome wrapping = Returned (None, Some (FailedToCommitError (Some commitFailed))) /\
  times CallCommit (calls wrapping) = 1.
Proof.
  pose proof (@action_success_is_committed
                (pgxv5.pgUOW nat) World nat (option sql.TxOptions) nat _
                pgFactory succeedingAction DefaultTxOptions
                (emptyWorld commitFailsDriver)
                pgFresh (pgAcquired commitFailsDriver)
                pgActive (pgBegun commitFailsDriver)
                (Some 7)
                pgActive (pgBegun commitFailsDriver)
                (Some commitFailed) pgActive
                (conn_Release 0 (record (EvCommit 1) (pgBegun commitFailsDriver)))
                eq_refl eq_refl eq_refl eq_refl) as G.
  cbn zeta in G.
  destruct G as (_ & _ & Once & _ & _ & _ & _ & _ & _ & _ & _ & Fails).
  destruct (Fails commitFailed eq_refl) as (Out & _).
  cbn zeta.
  split; [reflexivity|].
  split; [exact Out | exact Once].
Defined.

(** C3 as stated fails on the deferred revision: the commit fails, and the
    caller gets the driver's error without a [FailedToCommit] wrapper, next
    to the action's result. *)
Lemma commit_error_unwrapped_counterexample :
  let deferred :=
    Deferred.RunTxWithResult pgFactory succeedingAction DefaultTxOptions
                             (emptyWorld commitFailsDriver) in
  outcome deferred = Returned (Some 7, Some commitFailed) /\
  outcome deferred <> Returned (None, Some (FailedToCommitError (Some commitFailed))).
Proof.
  cbn zeta. split; [reflexivity | discriminate].
Qed.

(** C4 (amended).  When the factory gives a UoW and [Begin] fails, neither
    revision of [RunTxWithResult] invokes the action or calls [Commit] or
    [Rollback]; the UoW is left as the failed [Begin] left it.  The wrapping
    revision returns [FailedToStartTransaction(err)] around the error [Begin]
    returned; the deferred revision returns that error as it is.  On both
    adapters the UoW a factory builds is NotStarted, a failed [Begin] keeps
    it NotStarted, and the error it returns is the driver's (pgx) or the
    driver's behind "failed to begin transaction: " (database/sql). *)
Theorem begin_failure_skips_action
    (U W R O T : Type) (I : UOW U W R O)
    (factory : Factory U W) (action : TxActionWithResult U W T) (options : O) (w : W)
    uow0 w1 err uow1 w2
    (Rg : Type) (Z : GoZero Rg)
    (pgF : pgxv5.Factory Rg) (sqlF : stdsql.Factory Rg)
    (opts : option sql.TxOptions) (x : World) :
  NewUOW factory w = (inr uow0, w1) ->
  Begin options uow0 w1 = (Some err, uow1, w2) ->
  (* the helpers, over any factory and UoW *)
  Wrapping.RunTxWithResult factory action options w
    = mkRun (Returned (None, Some (FailedToStartTransactionError (Some err))))
            (Some uow1) w2 [CallNewUOW; CallBegin] /\
  carries err (FailedToStartTransactionError (Some err)) /\
  Deferred.RunTxWithResult factory action options w
    = mkRun (Returned (None, Some err)) (Some uow1) w2 [CallNewUOW; CallBegin] /\
  times CallAction [CallNewUOW; CallBegin] = 0 /\
  (* the adapters *)
  (forall u x1, pgxv5.NewUOW pgF x = (inr u, x1) ->
     pgNotStarted u /\
     forall e u' x2, pgxv5.Begin opts u x1 = (Some e, u', x2) ->
       pgNotStarted u' /\
       driver x1 (trace x1) (EvPgxBeginTx (pgxv5.conn u) (mapSQLTxOptionsToPgx opts))
         = Some e) /\
  (forall v x1, stdsql.NewUOW sqlF x = (inr v, x1) ->
     sqlNotStarted v /\
     forall e v' x2, stdsql.Begin opts v x1 = (Some e, v', x2) ->
       sqlNotStarted v' /\
       exists driverErr,
         driver x1 (trace x1) (EvSqlBeginTx opts) = Some driverErr /\
         e = wrapError "failed to begin transaction: " driverErr).
Proof.
  intros N B.
  unfold Wrapping.RunTxWithResult, Deferred.RunTxWithResult.
  rewrite N, B.
  split; [reflexivity|].
  split; [apply carries_start, carries_self|].
  split; [reflexivity|].
  split; [reflexivity|].
  split.
  - intros u x1 NU.
    assert (NS : pgNotStarted u).
    { unfold pgxv5.NewUOW in NU.
      destruct (pool_Acquire x) as [[e|c] x']; inversion NU; subst.
      split; reflexivity. }
    split; [exact NS|].
    intros e u' x2 Bg.
    pose proof (pg_Begin_failed _ _ _ Bg) as ->.
    split; [exact NS|].
    unfold pgxv5.Begin, conn_BeginTx, nativeNew, native in Bg.
    destruct (driver x1 (trace x1) _) as [e'|]; inversion Bg; reflexivity.
  - intros v x1 NU.
    assert (NS : sqlNotStarted v).
    { unfold stdsql.NewUOW in NU. inversion NU; subst. split; reflexivity. }
    split; [exact NS|].
    intros e v' x2 Bg.
    pose proof (sql_Begin_failed _ _ _ Bg) as ->.
    split; [exact NS|].
    unfold stdsql.Begin, db_BeginTx, nativeNew, native in Bg.
    destruct (driver x1 (trace x1) _) as [e'|]; inversion Bg.
    exists e'. split; reflexivity.
Qed.

(** A refused connection on the pgx adapter. *)
Lemma begin_failure_skips_action_witness :
  NewUOW pgFactory (emptyWorld beginFailsDriver)
    = (inr pgFresh, pgAcquired beginFailsDriver) /\
  Begin DefaultTxOptions pgFresh (pgAcquired beginFailsDriver)
    = (Some connRefused, pgFresh,
       record (EvPgxBeginTx 0 (pgx.mkTxOptions pgx.ReadCommitted pgx.ReadWrite))
              (pgAcquired beginFailsDriver)) /\
  Wrapping.RunTxWithResult pgFactory succeedingAction DefaultTxOptions
                           (emptyWorld beginFailsDriver)
    = mkRun (Returned (None, Some (FailedToStartTransactionError (Some connRefused))))
            (Some pgFresh)
            (record (EvPgxBeginTx 0 (pgx.mkTxOptions pgx.ReadCommitted pgx.ReadWrite))
                    (pgAcquired beginFailsDriver))
            [CallNewUOW; CallBegin] /\
  pgNotStarted pgFresh.
Proof.
  pose proof (@begin_failure_skips_action
                (pgxv5.pgUOW nat) World nat (option sql.TxOptions) nat _
                pgFactory succeedingAction DefaultTxOptions
                (emptyWorld beginFailsDriver)
                pgFresh (pgAcquired beginFailsDriver)
                connRefused pgFresh
                (record (EvPgxBeginTx 0 (pgx.mkTxOptions pgx.ReadCommitted pgx.ReadWrite))
                        (pgAcquired beginFailsDriver))
                nat _ (pgxv5.mkFactory natRegistry) (stdsql.mkFactory natRegistry)
                DefaultTxOptions (emptyWorld beginFailsDriver)
                eq_refl eq_refl) as G.
  destruct G as (Wr & _ & _ & _ & Pg & _).
  destruct (Pg pgFresh (pgAcquired beginFailsDriver) eq_refl) as (NS & _).
  split; [reflexivity|].
  split; [reflexivity|].
  split; [exact Wr | exact NS].
Defined.

(** C4 as stated fails on the deferred revision: the caller gets what
    [Begin] returned, with no [FailedToStartTransaction] around it. *)
Lemma begin_error_unwrapped_counterexample :
  outcome (Deferred.RunTxWithResult pgFactory succeedingAction DefaultTxOptions
                                    (emptyWorld beginFailsDriver))
    = Returned (None, Some connRefused) /\
  outcome (Deferred.RunTxWithResult sqlFactory succeedingAction DefaultTxOptions
                                    (emptyWorld beginFailsDriver))
    = Returned (None, Some (wrapError "failed to begin transaction: " connRefused)) /\
  outcome (Deferred.RunTxWithResult pgFactory succeedingAction DefaultTxOptions
                                    (emptyWorld beginFailsDriver))
    <> Returned (None, Some (FailedToStartTransactionError (Some connRefused))).
Proof.
  repeat split; discriminate.
Qed.

(** C9.  In both revisions [RunTx] returns the error component of
    [RunTxWithResult] run with the same factory and options on the action
    wrapped to return a nil result, and leaves the same UoW, world and calls
    behind; the same holds with the action wrapped at a unit result type. *)
Theorem RunTx_is_RunTxWithResult
    (U W R O : Type) (I : UOW U W R O)
    (factory : Factory U W) (action : TxAction U W) (options : O) (w : W) :
  Wrapping.RunTx factory action options w
    = errorOf (Wrapping.RunTxWithResult factory (nilResult action) options w) /\
  Wrapping.RunTx factory action options w
    = errorOf (Wrapping.RunTxWithResult factory (unitResult action) options w) /\
  Deferred.RunTx factory action options w
    = errorOf (Deferred.RunTxWithResult factory (nilResult action) options w) /\
  Deferred.RunTx factory action options w
    = errorOf (Deferred.RunTxWithResult factory (unitResult action) options w).
Proof.
  split; [reflexivity|].
  split.
  - rewrite Wrapping_errorOf. apply Wrapping_RunTx_ext.
    intros u x. symmetry. apply forget_unitResult.
  - split; [reflexivity|].
    rewrite Deferred_errorOf. apply Deferred_RunTx_ext.
    intros u x. symmetry. apply forget_unitResult.
Qed.

(* ================================================================== *)
(** ** More on the helpers: every path                                 *)
(* ================================================================== *)

(** X1.  When the factory gives no UoW, both revisions of [RunTxWithResult]
    and of [RunTx] return the factory's error unchanged, with a nil result,
    and call nothing else: no [Begin], no action, no [Commit], no
    [Rollback]. *)
Theorem acquisition_failure_is_returned
    (U W R O T : Type) (I : UOW U W R O)
    (factory : Factory U W) (action : TxActionWithResult U W T)
    (txAction : TxAction U W) (options : O) (w : W) err w1 :
  NewUOW factory w = (inl err, w1) ->
  Wrapping.RunTxWithResult factory action options w
    = mkRun (Returned (None, Some err)) None w1 [CallNewUOW] /\
  Deferred.RunTxWithResult factory action options w
    = mkRun (Returned (None, Some err)) None w1 [CallNewUOW] /\
  Wrapping.RunTx factory txAction options w
    = mkRun (Returned (Some err)) None w1 [CallNewUOW] /\
  Deferred.RunTx factory txAction options w
    = mkRun (Returned (Some err)) None w1 [CallNewUOW].
Proof.
  intros N.
  unfold Wrapping.RunTx, Deferred.RunTx, errorOf,
         Wrapping.RunTxWithResult, Deferred.RunTxWithResult.
  rewrite N. repeat split.
Qed.

(** An exhausted pool under the pgx factory. *)
Lemma acquisition_failure_is_returned_witness :
  NewUOW pgFactory (emptyWorld acquireFailsDriver)
    = (inl poolExhausted, pgAcquired acquireFailsDriver) /\
  Deferred.RunTxWithResult pgFactory succeedingAction DefaultTxOptions
                           (emptyWorld acquireFailsDriver)
    = mkRun (Returned (None, Some poolExhausted)) None
            (pgAcquired acquireFailsDriver) [CallNewUOW].
Proof.
  pose proof (@acquisition_failure_is_returned
                (pgxv5.pgUOW nat) World nat (option sql.TxOptions) nat _
                pgFactory succeedingAction
                (fun u x => (Returned None, u, x)) DefaultTxOptions
                (emptyWorld acquireFailsDriver)
                poolExhausted (pgAcquired acquireFailsDriver) eq_refl) as G.
  destruct G as (_ & D & _).
  split; [reflexivity | exact D].
Defined.


(** X3.  A nil error means a commit: when [RunTxWithResult] or [RunTx], in
    either revision, returns a nil error, the factory gave a UoW, [Begin]
    returned nil, the action returned a nil error (and, for
    [RunTxWithResult], the very result the caller gets), and the [Commit]
    the helper then made returned nil. *)
Theorem nil_error_means_committed
    (U W R O T : Type) (I : UOW U W R O)
    (factory : Factory U W) (action : TxActionWithResult U W T)
    (txAction : TxAction U W) (options : O) (w : W) (res : option T) :
  (outcome (Wrapping.RunTxWithResult factory action options w) = Returned (res, None) ->
   committedRun factory action options w res
                (Wrapping.RunTxWithResult factory action options w)) /\
  (outcome (Deferred.RunTxWithResult factory action options w) = Returned (res, None) ->
   committedRun factory action options w res
                (Deferred.RunTxWithResult factory action options w)) /\
  (outcome (Wrapping.RunTx factory txAction options w) = Returned None ->
   committedRun factory (nilResult txAction) options w None
                (Wrapping.RunTx factory txAction options w)) /\
  (outcome (Deferred.RunTx factory txAction options w) = Returned None ->
   committedRun factory (nilResult txAction) options w None
                (Deferred.RunTx factory txAction options w)).
Proof.
  unfold Wrapping.RunTx, Deferred.RunTx, errorOf, committedRun,
         Wrapping.RunTxWithResult, Deferred.RunTxWithResult, Deferred.deferred.
  destruct (NewUOW factory w) as [[e|u0] w1];
    [repeat split; cbn; intros E; discriminate E|].
  destruct (Begin options u0 w1) as [[[e|] u1] w2] eqn:B;
    [repeat split; cbn; intros E; discriminate E|].
  split; [|split; [|split]].
  - destruct (action u1 w2) as [[[[r [e|]]|p] u2] w3] eqn:A.
    + destruct (Rollback u2 w3) as [[[e'|] u3] w4]; cbn; intros E; discriminate E.
    + destruct (Commit u2 w3) as [[[e'|] u3] w4] eqn:C; cbn; intros E;
        [discriminate E|].
      inversion E; subst. exists u0, w1, u1, w2, u2, w3, u3, w4. repeat split; assumption.
    + cbn; intros E; discriminate E.
  - destruct (action u1 w2) as [[[[r [e|]]|p] u2] w3] eqn:A.
    + destruct (Rollback u2 w3) as [[e' u3] w4]; cbn; intros E; discriminate E.
    + destruct (Commit u2 w3) as [[[e'|] u3] w4] eqn:C; cbn; intros E;
        [discriminate E|].
      inversion E; subst. exists u0, w1, u1, w2, u2, w3, u3, w4. repeat split; assumption.
    + destruct (Rollback u2 w3) as [[e' u3] w4]; cbn; intros E; discriminate E.
  - unfold nilResult.
    destruct (txAction u1 w2) as [[[[e|]|p] u2] w3] eqn:A; cbn [mapOutcome].
    + destruct (Rollback u2 w3) as [[[e'|] u3] w4]; cbn; intros E; discriminate E.
    + destruct (Commit u2 w3) as [[[e'|] u3] w4] eqn:C; cbn; intros E;
        [discriminate E|].
      exists u0, w1, u1, w2, u2, w3, u3, w4.
      repeat split; try assumption; rewrite A; reflexivity.
    + cbn; intros E; discriminate E.
  - unfold nilResult.
    destruct (txAction u1 w2) as [[[[e|]|p] u2] w3] eqn:A; cbn [mapOutcome].
    + destruct (Rollback u2 w3) as [[e' u3] w4]; cbn; intros E; discriminate E.
    + destruct (Commit u2 w3) as [[[e'|] u3] w4] eqn:C; cbn; intros E;
        [discriminate E|].
      exists u0, w1, u1, w2, u2, w3, u3, w4.
      repeat split; try assumption; rewrite A; reflexivity.
    + destruct (Rollback u2 w3) as [[e' u3] w4]; cbn; intros E; discriminate E.
Qed.

(** A committed run on the pgx adapter. *)
Lemma nil_error_means_committed_witness :
  outcome (Deferred.RunTxWithResult pgFactory succeedingAction DefaultTxOptions
                                    (emptyWorld okDriver))
    = Returned (Some 7, None) /\
  committedRun pgFactory succeedingAction DefaultTxOptions (emptyWorld okDriver)
               (Some 7)
               (Deferred.RunTxWithResult pgFactory succeedingAction DefaultTxOptions
                                         (emptyWorld okDriver)).
Proof.
  pose proof (@nil_error_means_committed
                (pgxv5.pgUOW nat) World nat (option sql.TxOptions) nat _
                pgFactory succeedingAction
                (fun u x => (Returned None, u, x)) DefaultTxOptions
                (emptyWorld okDriver) (Some 7)) as G.
  destruct G as (_ & D & _).
  split; [reflexivity | exact (D eq_refl)].
Defined.

(** X4.  The errors of the wrapping revision: a non-nil error always comes
    with a nil result, and it is the factory's error, or
    [FailedToStartTransaction] around the error of [Begin], or the error the
    action returned (after a [Rollback] that returned nil), or
    [FailedToRollback] around the join of the action's and the rollback's
    errors, or [FailedToCommit] around the error of [Commit]. *)
Theorem wrapping_error_surface
    (U W R O T : Type) (I : UOW U W R O)
    (factory : Factory U W) (action : TxActionWithResult U W T)
    (options : O) (w : W) (res : option T) (e : error) :
  outcome (Wrapping.RunTxWithResult factory action options w) = Returned (res, Some e) ->
  res = None /\
  ((exists w1, NewUOW factory w = (inl e, w1)) \/
   (exists u0 w1 cause u1 w2,
      Begin options u0 w1 = (Some cause, u1, w2) /\
      e = FailedToStartTransactionError (Some cause)) \/
   (exists u1 w2 r u2 w3 u3 w4,
      action u1 w2 = (Returned (r, Some e), u2, w3) /\
      Rollback u2 w3 = (None, u3, w4)) \/
   (exists u1 w2 r a u2 w3 rb u3 w4,
      action u1 w2 = (Returned (r, Some a), u2, w3) /\
      Rollback u2 w3 = (Some rb, u3, w4) /\
      e = FailedToRollbackError (Some (joinError [a; rb]))) \/
   (exists u2 w3 cause u3 w4,
      Commit u2 w3 = (Some cause, u3, w4) /\
      e = FailedToCommitError (Some cause))).
Proof.
  unfold Wrapping.RunTxWithResult.
  destruct (NewUOW factory w) as [[e0|u0] w1] eqn:N.
  { cbn. intros E. inversion E; subst. split; [reflexivity|].
    left. exists w1. reflexivity. }
  destruct (Begin options u0 w1) as [[[e0|] u1] w2] eqn:B.
  { cbn. intros E. inversion E; subst. split; [reflexivity|].
    right; left. exists u0, w1, e0, u1, w2. split; [exact B | reflexivity]. }
  destruct (action u1 w2) as [[[[r [a|]]|p] u2] w3] eqn:A.
  - destruct (Rollback u2 w3) as [[[rb|] u3] w4] eqn:Rb; cbn; intros E;
      inversion E; subst; (split; [reflexivity|]).
    + right; right; right; left.
      exists u1, w2, r, a, u2, w3, rb, u3, w4. repeat split; assumption.
    + right; right; left.
      exists u1, w2, r, u2, w3, u3, w4. split; assumption.
  - destruct (Commit u2 w3) as [[[c|] u3] w4] eqn:C; cbn; intros E;
      inversion E; subst. split; [reflexivity|].
    right; right; right; right.
    exists u2, w3, c, u3, w4. split; [exact C | reflexivity].
  - cbn. intros E. discriminate E.
Qed.

(** The error of a failed commit on the pgx adapter. *)
Lemma wrapping_error_surface_witness :
  outcome (Wrapping.RunTxWithResult pgFactory succeedingAction DefaultTxOptions
                                    (emptyWorld commitFailsDriver))
    = Returned (None, Some (FailedToCommitError (Some commitFailed))) /\
  @None nat = None.
Proof.
  pose proof (@wrapping_error_surface
                (pgxv5.pgUOW nat) World nat (option sql.TxOptions) nat _
                pgFactory succeedingAction DefaultTxOptions
                (emptyWorld commitFailsDriver) None
                (FailedToCommitError (Some commitFailed)) eq_refl) as G.
  destruct G as (Nil & _).
  split; [reflexivity | exact Nil].
Defined.

(* ================================================================== *)
(** ** More on the adapters                                            *)
(* ================================================================== *)

Lemma nth_error_record (e : Event) (w : World) (n : nat) (x : Event) :
  nth_error (trace w) n = Some x -> nth_error (trace (record e w)) n = Some x.
Proof.
  intros E. unfold record; simpl.
  rewrite nth_error_app1; [exact E|].
  apply nth_error_Some. rewrite E. discriminate.
Qed.

Lemma firstn_record (e : Event) (w : World) (n : nat) (x : Event) :
  nth_error (trace w) n = Some x ->
  firstn n (trace (record e w)) = firstn n (trace w).
Proof.
  intros E. unfold record; simpl.
  assert (L : n < length (trace w)) by (apply nth_error_Some; rewrite E; discriminate).
  rewrite firstn_app.
  replace (n - length (trace w)) with 0 by lia.
  simpl. apply app_nil_r.
Qed.

Lemma nth_error_fresh (e : Event) (w : World) :
  nth_error (trace (record e w)) (length (trace w)) = Some e.
Proof.
  unfold record; simpl.
  rewrite nth_error_app2 by lia.
  rewrite Nat.sub_diag. reflexivity.
Qed.

Lemma firstn_fresh (e : Event) (w : World) :
  firstn (length (trace w)) (trace (record e w)) = trace w.
Proof.
  unfold record; simpl.
  rewrite firstn_app, Nat.sub_diag, firstn_all. simpl. apply app_nil_r.
Qed.

Section Bound.
Context {R : Type} `{GoZero R}.
Implicit Types (u : pgxv5.pgUOW R) (v : stdsql.sqlUOW R) (w : World).

Lemma pgBound_record u w e : pgBound u w -> pgBound u (record e w).
Proof.
  unfold pgBound. destruct (pgxv5.tx u) as [t|]; [|trivial].
  intros (Reg & o & Nth & Acc). split; [exact Reg|].
  exists o. split.
  - apply nth_error_record. exact Nth.
  - rewrite (firstn_record e w t Nth). exact Acc.
Qed.

Lemma sqlBound_record v w e : sqlBound v w -> sqlBound v (record e w).
Proof.
  unfold sqlBound. destruct (stdsql.tx v) as [t|]; [|trivial].
  intros (Reg & o & Nth & Acc). split; [exact Reg|].
  exists o. split.
  - apply nth_error_record. exact Nth.
  - rewrite (firstn_record e w t Nth). exact Acc.
Qed.

(** One call keeps the binding, the connection and the factory function,
    and only appends to the trace. *)
Lemma pg_step_keeps (op : Op (option sql.TxOptions)) u w :
  pgBound u w ->
  forall err u' w', step op u w = (err, u', w') ->
  pgBound u' w' /\
  pgxv5.conn u' = pgxv5.conn u /\
  pgxv5.repoRegistryFactory u' = pgxv5.repoRegistryFactory u /\
  driver w' = driver w /\
  exists evs, trace w' = trace w ++ evs.
Proof.
  intros Bd err u' w' S. destruct op as [o| |]; simpl in S.
  - unfold pgxv5.Begin, conn_BeginTx, nativeNew, native in S.
    destruct (driver w (trace w) _) as [e|] eqn:D; inversion S; subst; clear S.
    + split; [apply pgBound_record; exact Bd|].
      repeat split. eexists; reflexivity.
    + split.
      * unfold pgBound; simpl. split; [reflexivity|].
        eexists. split; [apply nth_error_fresh|].
        match goal with
        | |- driver _ ?l _ = None =>
            replace l with (trace w) by (symmetry; apply (firstn_fresh _ w))
        end.
        exact D.
      * repeat split. eexists; reflexivity.
  - unfold pgxv5.Commit in S.
    destruct (pgxv5.tx u) as [t|]; inversion S; subst; clear S.
    + split; [do 2 apply pgBound_record; exact Bd|].
      repeat split. unfold conn_Release, record; simpl.
      rewrite <- app_assoc. eexists; reflexivity.
    + split; [apply pgBound_record; exact Bd|].
      repeat split. eexists; reflexivity.
  - unfold pgxv5.Rollback in S.
    destruct (pgxv5.tx u) as [t|]; inversion S; subst; clear S.
    + split; [do 2 apply pgBound_record; exact Bd|].
      repeat split. unfold conn_Release, record; simpl.
      rewrite <- app_assoc. eexists; reflexivity.
    + split; [apply pgBound_record; exact Bd|].
      repeat split. eexists; reflexivity.
Qed.

Lemma sql_step_keeps (op : Op (option sql.TxOptions)) v w :
  sqlBound v w ->
  forall err v' w', step op v w = (err, v', w') ->
  sqlBound v' w' /\
  stdsql.repoRegistryFactory v' = stdsql.repoRegistryFactory v /\
  driver w' = driver w /\
  exists evs, trace w' = trace w ++ evs.
Proof.
  intros Bd err v' w' S. destruct op as [o| |]; simpl in S.
  - unfold stdsql.Begin, db_BeginTx, nativeNew, native in S.
    destruct (driver w (trace w) _) as [e|] eqn:D; inversion S; subst; clear S.
    + split; [apply sqlBound_record; exact Bd|].
      repeat split. eexists; reflexivity.
    + split.
      * unfold sqlBound; simpl. split; [reflexivity|].
        eexists. split; [apply nth_error_fresh|].
        match goal with
        | |- driver _ ?l _ = None =>
            replace l with (trace w) by (symmetry; apply (firstn_fresh _ w))
        end.
        exact D.
      * repeat split. eexists; reflexivity.
  - unfold stdsql.Commit in S.
    destruct (stdsql.tx v) as [t|]; inversion S; subst; clear S.
    + split; [apply sqlBound_record; exact Bd|].
      repeat split. eexists; reflexivity.
    + split; [exact Bd|]. repeat split. exists []. symmetry. apply app_nil_r.
  - unfold stdsql.Rollback in S.
    destruct (stdsql.tx v) as [t|]; inversion S; subst; clear S.
    + split; [apply sqlBound_record; exact Bd|].
      repeat split. eexists; reflexivity.
    + split; [exact Bd|]. repeat split. exists []. symmetry. apply app_nil_r.
Qed.

Lemma pg_runOps_keeps (ops : list (Op (option sql.TxOptions))) :
  forall u w, pgBound u w ->
  forall u' w', runOps ops u w = (u', w') ->
  pgBound u' w' /\
  pgxv5.conn u' = pgxv5.conn u /\
  pgxv5.repoRegistryFactory u' = pgxv5.repoRegistryFactory u /\
  driver w' = driver w /\
  exists evs, trace w' = trace w ++ evs.
Proof.
  induction ops as [|op ops IH]; intros u w Bd u' w' E.
  - simpl in E. inversion E; subst. split; [exact Bd|].
    repeat split. exists []. symmetry. apply app_nil_r.
  - cbn [runOps] in E.
    destruct (step op u w) as [[err u1] w1] eqn:S.
    destruct (@pg_step_keeps op u w Bd err u1 w1 S) as (Bd1 & C1 & F1 & D1 & evs1 & T1).
    destruct (IH u1 w1 Bd1 u' w' E) as (Bd2 & C2 & F2 & D2 & evs2 & T2).
    split; [exact Bd2|].
    split; [congruence|]. split; [congruence|]. split; [congruence|].
    exists (evs1 ++ evs2). rewrite T2, T1, app_assoc. reflexivity.
Qed.

Lemma sql_runOps_keeps (ops : list (Op (option sql.TxOptions))) :
  forall v w, sqlBound v w ->
  forall v' w', runOps ops v w = (v', w') ->
  sqlBound v' w' /\
  stdsql.repoRegistryFactory v' = stdsql.repoRegistryFactory v /\
  driver w' = driver w /\
  exists evs, trace w' = trace w ++ evs.
Proof.
  induction ops as [|op ops IH]; intros v w Bd v' w' E.
  - simpl in E. inversion E; subst. split; [exact Bd|].
    repeat split. exists []. symmetry. apply app_nil_r.
  - cbn [runOps] in E.
    destruct (step op v w) as [[err v1] w1] eqn:S.
    destruct (@sql_step_keeps op v w Bd err v1 w1 S) as (Bd1 & F1 & D1 & evs1 & T1).
    destruct (IH v1 w1 Bd1 v' w' E) as (Bd2 & F2 & D2 & evs2 & T2).
    split; [exact Bd2|].
    split; [congruence|]. split; [congruence|].
    exists (evs1 ++ evs2). rewrite T2, T1, app_assoc. reflexivity.
Qed.

End Bound.

(** X5.  The binding the adapters keep.  Take the UoW a factory builds and
    make any sequence of [Begin], [Commit] and [Rollback] calls on it, with
    any options and whatever the driver answers.  Then: without a stored
    handle the registry is still the zero value; a stored handle names a
    native begin call that the driver accepted (for pgx, one made on the
    connection the factory acquired for this UoW), and the stored registry
    is the one the factory function builds from that handle.  The factory
    itself makes no transaction call: pgx one pool acquisition, database/sql
    none. *)
Theorem adapters_keep_bound (R : Type) (Z : GoZero R)
    (pgF : pgxv5.Factory R) (sqlF : stdsql.Factory R)
    (ops : list (Op (option sql.TxOptions))) (w : World) :
  (forall u0 w1 u w',
     pgxv5.NewUOW pgF w = (inr u0, w1) ->
     runOps ops u0 w1 = (u, w') ->
     w1 = record EvAcquire w /\
     pgBound u w' /\
     pgxv5.conn u = length (trace w) /\
     nth_error (trace w') (pgxv5.conn u) = Some EvAcquire /\
     pgxv5.repoRegistryFactory u = pgxv5.factory_repoRegistryFactory pgF /\
     exists evs, trace w' = trace w ++ EvAcquire :: evs) /\
  (forall v0 w1 v w',
     stdsql.NewUOW sqlF w = (inr v0, w1) ->
     runOps ops v0 w1 = (v, w') ->
     w1 = w /\
     sqlBound v w' /\
     stdsql.repoRegistryFactory v = stdsql.factory_repoRegistryFactory sqlF /\
     exists evs, trace w' = trace w ++ evs).
Proof.
  split.
  - intros u0 w1 u w' N Ro.
    unfold pgxv5.NewUOW, pool_Acquire, nativeNew, native in N.
    destruct (driver w (trace w) EvAcquire) as [e|]; inversion N; subst; clear N.
    assert (B0 : pgBound (pgxv5.newPgUOW (length (trace w))
                            (pgxv5.factory_repoRegistryFactory pgF))
                         (record EvAcquire w)) by reflexivity.
    destruct (@pg_runOps_keeps R Z ops _ _ B0 _ _ Ro) as (Bd & C & F & D & evs & T).
    simpl in C, F.
    split; [reflexivity|]. split; [exact Bd|]. split; [exact C|].
    split.
    + rewrite C, T. rewrite nth_error_app1.
      * apply nth_error_fresh.
      * unfold record; simpl. rewrite length_app; simpl. lia.
    + split; [exact F|].
      exists evs. rewrite T. unfold record; simpl.
      rewrite <- app_assoc. reflexivity.
  - intros v0 w1 v w' N Ro.
    unfold stdsql.NewUOW in N. injection N as <- <-.
    assert (B0 : sqlBound (stdsql.newSQLUOW (stdsql.factory_repoRegistryFactory sqlF)) w)
      by reflexivity.
    destruct (@sql_runOps_keeps R Z ops _ _ B0 _ _ Ro) as (Bd & F & D & evs & T).
    simpl in F.
    split; [reflexivity|]. split; [exact Bd|]. split; [exact F|].
    exists evs. exact T.
Qed.

(** Begin, Commit, Begin, Rollback on a pgx UoW with a driver that refuses
    to finalise twice. *)
Lemma adapters_keep_bound_witness :
  pgxv5.NewUOW (pgxv5.mkFactory natRegistry) (emptyWorld strictDriver)
    = (inr pgFresh, pgAcquired strictDriver) /\
  pgBound
    (fst (runOps [OpBegin DefaultTxOptions; OpCommit;
                  OpBegin SerializableTxOptions; OpRollback]
                 pgFresh (pgAcquired strictDriver)))
    (snd (runOps [OpBegin DefaultTxOptions; OpCommit;
                  OpBegin SerializableTxOptions; OpRollback]
                 pgFresh (pgAcquired strictDriver))) /\
  pgxv5.tx (fst (runOps [OpBegin DefaultTxOptions; OpCommit;
                         OpBegin SerializableTxOptions; OpRollback]
                        pgFresh (pgAcquired strictDriver))) = Some 4.
Proof.
  pose proof (@adapters_keep_bound nat _
                (pgxv5.mkFactory natRegistry) (stdsql.mkFactory natRegistry)
                [OpBegin DefaultTxOptions; OpCommit;
                 OpBegin SerializableTxOptions; OpRollback]
                (emptyWorld strictDriver)) as G.
  destruct G as (Pg & _).
  destruct (Pg pgFresh (pgAcquired strictDriver) _ _ eq_refl
               (surjective_pairing _)) as (_ & Bd & _).
  split; [reflexivity|].
  split; [exact Bd | reflexivity].
Defined.

(** X6.  [Begin], then the registry, then the finaliser.  Whatever state the
    UoW is in, when the driver accepts the native begin, [Begin] returns nil
    after exactly one native call (pgx: on the UoW's connection, with the
    mapped options; database/sql: with the options as given, nil included);
    both accessors then return the registry the factory function builds from
    the new transaction, and a following [Commit] or [Rollback] is issued on
    that same transaction. *)
Theorem Begin_then_registry (R : Type)
    (u : pgxv5.pgUOW R) (v : stdsql.sqlUOW R)
    (o : option sql.TxOptions) (w : World) :
  let t := length (trace w) in
  let pgBegin := EvPgxBeginTx (pgxv5.conn u) (mapSQLTxOptionsToPgx o) in
  (driver w (trace w) pgBegin = None ->
   exists u' w',
     pgxv5.Begin o u w = (None, u', w') /\
     trace w' = trace w ++ [pgBegin] /\
     pgxv5.RepoRegistry u' = (Some (pgxv5.repoRegistryFactory u t), None) /\
     pgxv5.MustRepoRegistry u' = Returned (pgxv5.repoRegistryFactory u t) /\
     trace (snd (pgxv5.Commit u' w'))
       = trace w' ++ [EvCommit t; EvRelease (pgxv5.conn u)] /\
     trace (snd (pgxv5.Rollback u' w'))
       = trace w' ++ [EvRollback t; EvRelease (pgxv5.conn u)]) /\
  (driver w (trace w) (EvSqlBeginTx o) = None ->
   exists v' w',
     stdsql.Begin o v w = (None, v', w') /\
     trace w' = trace w ++ [EvSqlBeginTx o] /\
     stdsql.MustRepoRegistry v' = Returned (stdsql.repoRegistryFactory v t) /\
     trace (snd (stdsql.Commit v' w')) = trace w' ++ [EvCommit t] /\
     trace (snd (stdsql.Rollback v' w')) = trace w' ++ [EvRollback t]).
Proof.
  cbn zeta. split; intros D.
  - unfold pgxv5.Begin, conn_BeginTx. rewrite (nativeNew_ok _ _ D).
    do 2 eexists. split; [reflexivity|].
    repeat split; simpl; rewrite <- ?app_assoc; reflexivity.
  - unfold stdsql.Begin, db_BeginTx. rewrite (nativeNew_ok _ _ D).
    do 2 eexists. split; [reflexivity|].
    repeat split.
Qed.

(** A read-only [Begin] on the fresh pgx UoW. *)
Lemma Begin_then_registry_witness :
  driver (pgAcquired okDriver) (trace (pgAcquired okDriver))
         (EvPgxBeginTx 0 (mapSQLTxOptionsToPgx ReadOnlyTxOptions)) = None /\
  exists u' w',
    pgxv5.Begin ReadOnlyTxOptions pgFresh (pgAcquired okDriver) = (None, u', w') /\
    trace w' = [EvAcquire; EvPgxBeginTx 0 (pgx.mkTxOptions pgx.ReadCommitted pgx.ReadOnly)] /\
    pgxv5.MustRepoRegistry u' = Returned 2.
Proof.
  pose proof (@Begin_then_registry nat pgFresh sqlFresh ReadOnlyTxOptions
                (pgAcquired okDriver)) as G.
  cbn zeta in G. destruct G as (Pg & _).
  destruct (Pg eq_refl) as (u' & w' & B & T & _ & M & _).
  split; [reflexivity|].
  exists u', w'. split; [exact B|]. split; [exact T | exact M].
Defined.

(** X7.  The two accessors of the pgx UoW agree: [MustRepoRegistry] returns
    the registry exactly when [RepoRegistry] returns it with a nil error,
    and otherwise panics with the message of the error [RepoRegistry]
    returns, which is [ErrTransactionNotStarted]; the database/sql UoW's
    [MustRepoRegistry] does the same on the same state. *)
Theorem accessors_agree (R : Type) (u : pgxv5.pgUOW R) (v : stdsql.sqlUOW R) :
  pgxv5.MustRepoRegistry u
    = match pgxv5.RepoRegistry u with
      | (_, Some err) => Panicked (PanicString (Error_ err))
      | (Some r, None) => Returned r
      | (None, None) => Returned (pgxv5.repoRegistry u)
      end /\
  (snd (pgxv5.RepoRegistry u) = None \/
   pgxv5.RepoRegistry u = (None, Some ErrTransactionNotStarted)) /\
  (fst (pgxv5.RepoRegistry u) = None <-> snd (pgxv5.RepoRegistry u) <> None) /\
  (stdsql.tx v = pgxv5.tx u -> stdsql.repoRegistry v = pgxv5.repoRegistry u ->
   stdsql.MustRepoRegistry v = pgxv5.MustRepoRegistry u).
Proof.
  unfold pgxv5.MustRepoRegistry, pgxv5.RepoRegistry, stdsql.MustRepoRegistry.
  destruct (pgxv5.tx u) as [t|]; simpl.
  - repeat split; try (left; reflexivity).
    + intros E; discriminate E.
    + intros N; exfalso; apply N; reflexivity.
    + intros E1 E2. rewrite E1, E2. reflexivity.
  - repeat split; try (right; reflexivity).
    + intros _ E; discriminate E.
    + intros E1 E2. rewrite E1. reflexivity.
Qed.

(** The accessors on the begun UoWs. *)
Lemma accessors_agree_witness :
  stdsql.tx (stdsql.mkSqlUOW (Some 1) 2 natRegistry) = pgxv5.tx pgActive /\
  stdsql.MustRepoRegistry (stdsql.mkSqlUOW (Some 1) 2 natRegistry) = Returned 2 /\
  pgxv5.RepoRegistry pgActive = (Some 2, None).
Proof.
  pose proof (@accessors_agree nat pgActive (stdsql.mkSqlUOW (Some 1) 2 natRegistry)) as G.
  destruct G as (_ & _ & _ & Same).
  split; [reflexivity|].
  split; [rewrite (Same eq_refl eq_refl); reflexivity | reflexivity].
Defined.

(* ================================================================== *)
(** ** The helpers on the adapters                                     *)
(* ================================================================== *)

(** X8.  A failed [Begin] under the pgx factory: the helpers return without
    calling [Commit] or [Rollback], the only calls that release, so the
    connection the factory acquired for the run stays checked out. *)
Theorem begin_failure_keeps_connection (R : Type) (Z : GoZero R)
    (f : pgxv5.Factory R) (T : Type)
    (action : TxActionWithResult (pgxv5.pgUOW R) World T)
    (opts : option sql.TxOptions) (w : World) (e : error) :
  let c := length (trace w) in
  let beginTx := EvPgxBeginTx c (mapSQLTxOptionsToPgx opts) in
  let after := record beginTx (record EvAcquire w) in
  let fresh := pgxv5.newPgUOW c (pgxv5.factory_repoRegistryFactory f) in
  driver w (trace w) EvAcquire = None ->
  driver w (trace w ++ [EvAcquire]) beginTx = Some e ->
  Wrapping.RunTxWithResult (pgxv5.asFactory f) action opts w
    = mkRun (Returned (None, Some (FailedToStartTransactionError (Some e))))
            (Some fresh) after [CallNewUOW; CallBegin] /\
  Deferred.RunTxWithResult (pgxv5.asFactory f) action opts w
    = mkRun (Returned (None, Some e)) (Some fresh) after [CallNewUOW; CallBegin] /\
  acquires after = acquires w + 1 /\
  releases after = releases w /\
  finals after = finals w.
Proof.
  cbn zeta. intros A B.
  unfold Wrapping.RunTxWithResult, Deferred.RunTxWithResult.
  cbn [NewUOW pgxv5.asFactory].
  unfold pgxv5.NewUOW, pool_Acquire. rewrite (nativeNew_ok _ _ A).
  cbn [Begin pgxv5.pgUOW_UOW].
  unfold pgxv5.Begin, conn_BeginTx.
  cbn [pgxv5.conn pgxv5.newPgUOW].
  rewrite (nativeNew_err _ (record EvAcquire w) B).
  repeat split; unfold acquires; count_simpl; cbn [isAcquire]; lia.
Qed.

(** A refused connection under the pgx factory. *)
Lemma begin_failure_keeps_connection_witness :
  driver (emptyWorld beginFailsDriver) [] EvAcquire = None /\
  releases (world_final
              (Deferred.RunTxWithResult pgFactory succeedingAction DefaultTxOptions
                                        (emptyWorld beginFailsDriver))) = 0 /\
  acquires (world_final
              (Deferred.RunTxWithResult pgFactory succeedingAction DefaultTxOptions
                                        (emptyWorld beginFailsDriver))) = 1.
Proof.
  pose proof (@begin_failure_keeps_connection nat _ (pgxv5.mkFactory natRegistry)
                nat succeedingAction DefaultTxOptions
                (emptyWorld beginFailsDriver) connRefused eq_refl eq_refl) as G.
  cbn zeta in G. destruct G as (_ & D & Acq & Rel & _).
  split; [reflexivity|].
  unfold pgFactory. rewrite D. cbn [world_final].
  split; [exact Rel | exact Acq].
Defined.

(** X9.  After a successful [Begin] under the pgx factory, whatever the
    action does and however it ends, the deferred revision releases the
    connection exactly once after the action and issues exactly one native
    commit or rollback if the UoW still holds a handle.  The wrapping
    revision does the same when the action returns, and neither when it
    panics. *)
Theorem pg_run_finalises_after_action (R : Type) (Z : GoZero R)
    (f : pgxv5.Factory R) (T : Type)
    (action : TxActionWithResult (pgxv5.pgUOW R) World T)
    (opts : option sql.TxOptions) (w : World)
    u0 w1 u1 w2 o u2 w3 :
  NewUOW (pgxv5.asFactory f) w = (inr u0, w1) ->
  Begin opts u0 w1 = (None, u1, w2) ->
  action u1 w2 = (o, u2, w3) ->
  let deferred := Deferred.RunTxWithResult (pgxv5.asFactory f) action opts w in
  let wrapping := Wrapping.RunTxWithResult (pgxv5.asFactory f) action opts w in
  let held := match pgxv5.tx u2 with Some _ => 1 | None => 0 end in
  let returned := match o with Returned _ => 1 | Panicked _ => 0 end in
  releases (world_final deferred) = releases w3 + 1 /\
  finals (world_final deferred) = finals w3 + held /\
  releases (world_final wrapping) = releases w3 + returned /\
  finals (world_final wrapping) = finals w3 + returned * held /\
  uow_final deferred = Some u2 /\
  uow_final wrapping = Some u2.
Proof.
  intros N B A. cbn zeta.
  unfold Deferred.RunTxWithResult, Deferred.deferred, Wrapping.RunTxWithResult.
  rewrite N, B, A.
  cbn [Rollback Commit pgxv5.pgUOW_UOW].
  unfold pgxv5.Rollback, pgxv5.Commit.
  destruct o as [[res [e|]]|p]; destruct (pgxv5.tx u2) as [t|];
    cbn [tx_Rollback tx_Commit native fst snd];
    repeat match goal with
           | |- context [driver ?w ?l ?e] => destruct (driver w l e)
           end;
    cbn [world_final uow_final];
    repeat split; count_simpl; lia.
Qed.

(** A panicking action under the pgx factory. *)
Lemma pg_run_finalises_after_action_witness :
  releases (world_final
              (Deferred.RunTxWithResult pgFactory panickingAction DefaultTxOptions
                                        (emptyWorld okDriver))) = 1 /\
  releases (world_final
              (Wrapping.RunTxWithResult pgFactory panickingAction DefaultTxOptions
                                        (emptyWorld okDriver))) = 0.
Proof.
  pose proof (@pg_run_finalises_after_action nat _ (pgxv5.mkFactory natRegistry)
                nat panickingAction DefaultTxOptions (emptyWorld okDriver)
                pgFresh (pgAcquired okDriver) pgActive (pgBegun okDriver)
                (Panicked (PanicString "boom")) pgActive (pgBegun okDriver)
                eq_refl eq_refl eq_refl) as G.
  cbn zeta in G. destruct G as (D & _ & Wr & _).
  split; [exact D | exact Wr].
Defined.

(** X10.  The native calls of one run under the pgx factory.  When the pool
    gives a connection, the driver accepts the begin, and the action returns
    without touching the UoW or making native calls of its own, both
    revisions make exactly these calls, in this order: acquire, begin with
    the mapped options on the acquired connection, commit (nil error from
    the action) or rollback (non-nil error) of the transaction begun, and
    release of the connection, whether or not the commit or rollback
    fails. *)
Theorem pg_run_protocol (R : Type) (Z : GoZero R)
    (f : pgxv5.Factory R) (T : Type)
    (action : TxActionWithResult (pgxv5.pgUOW R) World T)
    (opts : option sql.TxOptions) (w : World)
    (res : option T) (err : option error) :
  let c := length (trace w) in
  let t := S c in
  let beginTx := EvPgxBeginTx c (mapSQLTxOptionsToPgx opts) in
  let begun := record beginTx (record EvAcquire w) in
  let rf := pgxv5.factory_repoRegistryFactory f in
  let active := pgxv5.mkPgUOW (Some t) (rf t) c rf in
  driver w (trace w) EvAcquire = None ->
  driver w (trace w ++ [EvAcquire]) beginTx = None ->
  action active begun = (Returned (res, err), active, begun) ->
  trace (world_final (Deferred.RunTxWithResult (pgxv5.asFactory f) action opts w))
    = trace w ++ [EvAcquire; beginTx; finalCall err t; EvRelease c] /\
  trace (world_final (Wrapping.RunTxWithResult (pgxv5.asFactory f) action opts w))
    = trace w ++ [EvAcquire; beginTx; finalCall err t; EvRelease c] /\
  uow_final (Deferred.RunTxWithResult (pgxv5.asFactory f) action opts w) = Some active /\
  uow_final (Wrapping.RunTxWithResult (pgxv5.asFactory f) action opts w) = Some active.
Proof.
  cbn zeta. intros A B Act.
  unfold Deferred.RunTxWithResult, Deferred.deferred, Wrapping.RunTxWithResult.
  cbn [NewUOW pgxv5.asFactory].
  unfold pgxv5.NewUOW, pool_Acquire. rewrite (nativeNew_ok _ _ A).
  cbn [Begin pgxv5.pgUOW_UOW].
  unfold pgxv5.Begin, conn_BeginTx.
  cbn [pgxv5.conn pgxv5.newPgUOW pgxv5.repoRegistryFactory].
  rewrite (nativeNew_ok _ (record EvAcquire w) B).
  replace (length (trace (record EvAcquire w))) with (S (length (trace w)))
    by (unfold record; simpl; rewrite length_app; simpl; lia).
  repeat match goal with
         | |- context [action ?a ?b] =>
             replace (action a b) with (Returned (res, err), a, b)
               by (symmetry; exact Act)
         end.
  cbn [Rollback Commit pgxv5.pgUOW_UOW].
  unfold pgxv5.Rollback, pgxv5.Commit.
  cbn [pgxv5.tx pgxv5.conn tx_Rollback tx_Commit native].
  destruct err as [e|];
    repeat match goal with
           | |- context [driver ?x ?l ?ev] => destruct (driver x l ev)
           end;
    cbn [world_final uow_final finalCall];
    repeat split; unfold conn_Release, record; simpl;
    rewrite <- ?app_assoc; reflexivity.
Qed.

(** A failing action whose rollback fails, under the pgx factory. *)
Lemma pg_run_protocol_witness :
  trace (world_final
           (Deferred.RunTxWithResult pgFactory failingAction DefaultTxOptions
                                     (emptyWorld rollbackFailsDriver)))
    = [EvAcquire; EvPgxBeginTx 0 (pgx.mkTxOptions pgx.ReadCommitted pgx.ReadWrite);
       EvRollback 1; EvRelease 0].
Proof.
  pose proof (@pg_run_protocol nat _ (pgxv5.mkFactory natRegistry)
                nat failingAction DefaultTxOptions
                (emptyWorld rollbackFailsDriver) None (Some insertFailed)
                eq_refl eq_refl eq_refl) as G.
  cbn zeta in G. destruct G as (D & _).
  exact D.
Defined.

(** X11.  The native calls of one run under the database/sql factory.  The
    factory makes no call.  When the driver accepts the begin and the action
    returns without touching the UoW or making native calls of its own, both
    revisions make exactly two calls: begin with the options as given, then
    commit (nil error from the action) or rollback (non-nil error) of the
    transaction begun.  When the driver refuses the begin that is the only
    call, and the error is the driver's behind "failed to begin
    transaction: ", wrapped once more by the wrapping revision. *)
Theorem sql_run_protocol (R : Type) (Z : GoZero R)
    (f : stdsql.Factory R) (T : Type)
    (action : TxActionWithResult (stdsql.sqlUOW R) World T)
    (opts : option sql.TxOptions) (w : World)
    (res : option T) (err : option error) :
  let t := length (trace w) in
  let begun := record (EvSqlBeginTx opts) w in
  let rf := stdsql.factory_repoRegistryFactory f in
  let active := stdsql.mkSqlUOW (Some t) (rf t) rf in
  (driver w (trace w) (EvSqlBeginTx opts) = None ->
   action active begun = (Returned (res, err), active, begun) ->
   trace (world_final (Deferred.RunTxWithResult (stdsql.asFactory f) action opts w))
     = trace w ++ [EvSqlBeginTx opts; finalCall err t] /\
   trace (world_final (Wrapping.RunTxWithResult (stdsql.asFactory f) action opts w))
     = trace w ++ [EvSqlBeginTx opts; finalCall err t]) /\
  (forall e, driver w (trace w) (EvSqlBeginTx opts) = Some e ->
   Deferred.RunTxWithResult (stdsql.asFactory f) action opts w
     = mkRun (Returned (None, Some (wrapError "failed to begin transaction: " e)))
             (Some (stdsql.newSQLUOW rf)) begun [CallNewUOW; CallBegin] /\
   Wrapping.RunTxWithResult (stdsql.asFactory f) action opts w
     = mkRun (Returned
                (None,
                 Some (FailedToStartTransactionError
                         (Some (wrapError "failed to begin transaction: " e)))))
             (Some (stdsql.newSQLUOW rf)) begun [CallNewUOW; CallBegin]).
Proof.
  cbn zeta. split.
  - intros B Act.
    unfold Deferred.RunTxWithResult, Deferred.deferred, Wrapping.RunTxWithResult.
    cbn [NewUOW stdsql.asFactory].
    unfold stdsql.NewUOW.
    cbn [Begin stdsql.sqlUOW_UOW].
    unfold stdsql.Begin, db_BeginTx.
    cbn [stdsql.newSQLUOW stdsql.repoRegistryFactory].
    rewrite (nativeNew_ok _ w B).
    repeat match goal with
           | |- context [action ?a ?b] =>
               replace (action a b) with (Returned (res, err), a, b)
                 by (symmetry; exact Act)
           end.
    cbn [Rollback Commit stdsql.sqlUOW_UOW].
    unfold stdsql.Rollback, stdsql.Commit.
    cbn [stdsql.tx tx_Rollback tx_Commit native].
    destruct err as [e|];
      repeat match goal with
             | |- context [driver ?x ?l ?ev] => destruct (driver x l ev)
             end;
      cbn [world_final finalCall];
      repeat split; unfold record; simpl;
      rewrite <- ?app_assoc; reflexivity.
  - intros e B.
    unfold Deferred.RunTxWithResult, Wrapping.RunTxWithResult.
    cbn [NewUOW stdsql.asFactory].
    unfold stdsql.NewUOW.
    cbn [Begin stdsql.sqlUOW_UOW].
    unfold stdsql.Begin, db_BeginTx.
    rewrite (nativeNew_err _ w B).
    split; reflexivity.
Qed.

(** A succeeding action whose commit fails, under the database/sql factory. *)
Lemma sql_run_protocol_witness :
  trace (world_final
           (Wrapping.RunTxWithResult sqlFactory succeedingAction DefaultTxOptions
                                     (emptyWorld commitFailsDriver)))
    = [EvSqlBeginTx DefaultTxOptions; EvCommit 0].
Proof.
  pose proof (@sql_run_protocol nat _ (stdsql.mkFactory natRegistry)
                nat succeedingAction DefaultTxOptions
                (emptyWorld commitFailsDriver) (Some 7) None) as G.
  cbn zeta in G. destruct G as (Ok & _).
  destruct (Ok eq_refl eq_refl) as (_ & Wr).
  exact Wr.
Defined.

(* ================================================================== *)
(** ** The messages of the lifecycle errors                            *)
(* ================================================================== *)

(** X12.  What the lifecycle errors print.  The error the wrapping revision
    returns when action and rollback both fail prints the rollback prefix,
    the action's message and, on the next line, the rollback's message; the
    commit and start wrappers print their prefix and the cause's message,
    and the start wrapper around the database/sql adapter's begin error
    prints both prefixes before the driver's message.  Whatever their
    causes, the three wrappers never print the same message, so the message
    alone tells the failed phase. *)
Theorem lifecycle_error_messages (a b c : error) (x y : option error) :
  Error_ (FailedToRollback (errors_Join [Some a; Some b]))
    = (rollbackPrefix ++ Error_ a ++ newline ++ Error_ b)%string /\
  Error_ (FailedToCommit (Some c)) = (commitPrefix ++ Error_ c)%string /\
  Error_ (FailedToStartTransaction (Some c)) = (startPrefix ++ Error_ c)%string /\
  Error_ (FailedToStartTransaction (Some (wrapError "failed to begin transaction: " c)))
    = ("failed to start transaction: failed to begin transaction: " ++ Error_ c)%string /\
  Error_ (FailedToRollback x) <> Error_ (FailedToCommit y) /\
  Error_ (FailedToRollback x) <> Error_ (FailedToStartTransaction y) /\
  Error_ (FailedToCommit x) <> Error_ (FailedToStartTransaction y).
Proof.
  repeat split; try reflexivity;
    unfold FailedToRollback, FailedToCommit, FailedToStartTransaction;
    cbn [Error_]; unfold rollbackPrefix, commitPrefix, startPrefix;
    cbn [String.append]; intros E; discriminate E.
Qed.

(* ================================================================== *)
(** ** More on the mapping and on the two revisions                    *)
(* ================================================================== *)

(** X13.  The range of [mapSQLTxOptionsToPgx].  For non-nil options the
    isolation level is always one of the four pgx levels and the access mode
    one of the two pgx modes, never empty; so the result for non-nil options
    is never the zero [pgx.TxOptions] that nil options give.  The result
    depends on the requested level only through the level it is mapped to:
    a level the switch does not name gives the same pgx options as
    [sql.LevelReadCommitted]. *)
Theorem mapSQLTxOptionsToPgx_range (o : sql.TxOptions) :
  let p := mapSQLTxOptionsToPgx (Some o) in
  In (pgx.IsoLevel p)
     [pgx.ReadUncommitted; pgx.ReadCommitted; pgx.RepeatableRead; pgx.Serializable] /\
  In (pgx.AccessMode p) [pgx.ReadOnly; pgx.ReadWrite] /\
  p <> mapSQLTxOptionsToPgx None /\
  (recognised (sql.Isolation o) \/
   p = mapSQLTxOptionsToPgx
         (Some (sql.mkTxOptions sql.LevelReadCommitted (sql.ReadOnly o)))).
Proof.
  destruct o as [l ro]. cbn zeta. unfold mapSQLTxOptionsToPgx, mapIsolation, recognised.
  cbn [sql.Isolation sql.ReadOnly pgx.IsoLevel pgx.AccessMode].
  destruct (Z.eqb_spec l sql.LevelReadUncommitted);
    [|destruct (Z.eqb_spec l sql.LevelReadCommitted);
      [|destruct (Z.eqb_spec l sql.LevelRepeatableRead);
        [|destruct (Z.eqb_spec l sql.LevelSerializable)]]];
    destruct ro; cbn [Z.eqb sql.LevelReadCommitted];
    repeat split; simpl; try tauto; try discriminate.
Qed.

